(** * quantopian.py: price fetcher and rolling regression

    A shallow embedding of [src/quantopian.py].  The file has two functions,
    [get_pricing] and [RollingOLS]; both are thin layers over pandas,
    statsmodels and yfinance.  The parts of those libraries that the two
    functions call are modelled in the modules [Pandas] and [Statsmodels];
    the network provider and the regression solver are section variables.

    Numbers: pandas cells hold IEEE doubles.  Here a cell is [option Q]:
    [None] is NaN (a missing value), [Some q] an exact rational.  Infinite
    values and rounding are outside the model. *)

From Stdlib Require Import ZArith QArith Qminmax String Ascii Bool Lia Lqa List.
Import ListNotations.
Close Scope Q_scope.
Open Scope list_scope.

Set Implicit Arguments.

(** ** Exceptions and results *)

Inductive Exn : Type :=
| KeyError (label : string)
| ValueError (msg : string)
| IndexError (msg : string)
| MissingDataError (msg : string)
| TypeError (msg : string)
| KeyErrorNotFound (missing : list string).

Inductive Result (A : Type) : Type :=
| Ok (a : A)
| Raise (e : Exn).

Arguments Ok {A} a.
Arguments Raise {A} e.

Definition bind {A B : Type} (r : Result A) (k : A -> Result B) : Result B :=
  match r with
  | Ok a => k a
  | Raise e => Raise e
  end.

Notation "x <- e ;; k" := (bind e (fun x => k))
  (at level 100, e at next level, right associativity).

(** A [for] loop whose body may raise: the state is threaded through the
    iterations and the first exception leaves the loop. *)
Fixpoint for_each {S I : Type} (body : S -> I -> Result S) (its : list I) (s : S)
  : Result S :=
  match its with
  | [] => Ok s
  | i :: rest => s' <- body s i ;; for_each body rest s'
  end.

(** ** Python built-ins *)

Module Py.

(** [range(n)] as a list of integers; empty when [n <= 0]. *)
Definition range (n : Z) : list Z :=
  map Z.of_nat (seq 0 (Z.to_nat n)).

Definition len {A : Type} (l : list A) : Z := Z.of_nat (length l).

(** Bound of a slice [l[lo:hi]] brought into [0 .. len]: a negative bound
    counts from the end, and both ends are clamped. *)
Definition clamp (n i : Z) : Z :=
  if (i <? 0)%Z then Z.max 0 (i + n) else Z.min i n.

(** [l[lo:hi]]; a bound that is left out is [None]. *)
Definition slice {A : Type} (l : list A) (lo hi : option Z) : list A :=
  let n := len l in
  let a := match lo with Some i => clamp n i | None => 0%Z end in
  let b := match hi with Some i => clamp n i | None => n end in
  firstn (Z.to_nat (b - a)) (skipn (Z.to_nat a) l).

(** [sep.join(parts)] for the empty separator. *)
Definition join_empty (parts : list string) : string :=
  fold_right String.append EmptyString parts.

(** [s.split(',')]: the pieces between the commas, empty pieces kept, so
    the result is never the empty list. *)
Fixpoint split_comma_aux (s : string) (cur : string) : list string :=
  match s with
  | EmptyString => [cur]
  | String c rest =>
      if Ascii.eqb c ","%char
      then cur :: split_comma_aux rest EmptyString
      else split_comma_aux rest (String.append cur (String c EmptyString))
  end.

Definition split_comma (s : string) : list string := split_comma_aux s EmptyString.

End Py.

(** ** pandas: series and frames *)

(** Timestamps are integers (a count of periods). *)
Abbreviation Timestamp := Z (only parsing).

(** A cell of a series or frame; [None] is NaN. *)
Abbreviation cell := (option Q) (only parsing).

Definition is_present (c : cell) : bool :=
  match c with Some _ => true | None => false end.

Module Pandas.

(** A series: a name and an ordered sequence of (timestamp, value). *)
Record Series : Type := mkSeries {
  name : string;
  items : list (Timestamp * cell)
}.

Definition s_index (s : Series) : list Timestamp := map fst (items s).
Definition s_values (s : Series) : list cell := map snd (items s).

(** A frame, stored by column as pandas does: the row labels and, per
    column in order, its label and one cell per row. *)
Record DataFrame : Type := mkFrame {
  index : list Timestamp;
  cols : list (string * list cell)
}.

Definition columns (df : DataFrame) : list string := map fst (cols df).

(** [pd.DataFrame()] *)
Definition empty_frame : DataFrame := mkFrame [] [].

(** [pd.DataFrame(columns=labels, index=idx)]: every cell NaN. *)
Definition new_frame (labels : list string) (idx : list Timestamp) : DataFrame :=
  mkFrame idx (map (fun c => (c, repeat (@None Q) (length idx))) labels).

(** [s[lo:hi]] with integer bounds slices by position. *)
Definition series_slice (s : Series) (lo hi : option Z) : Series :=
  mkSeries (name s) (Py.slice (items s) lo hi).

Fixpoint list_set {A : Type} (l : list A) (i : nat) (v : A) : list A :=
  match l, i with
  | [], _ => []
  | _ :: t, O => v :: t
  | h :: t, S i' => h :: list_set t i' v
  end.

(** Writes [vals], one per column, into row [i] of the columns. *)
Fixpoint set_row (cs : list (string * list cell)) (i : nat) (vals : list cell)
  : list (string * list cell) :=
  match cs, vals with
  | (c, l) :: cs', v :: vals' => (c, list_set l i v) :: set_row cs' i vals'
  | _, _ => cs
  end.

(** [df.iloc[i] = vals] for a list [vals].  The row must exist
    (iloc never enlarges its target).  One value per column is written
    position by position, labels play no role; a list of one value is
    broadcast to every column; another length is an error. *)
Definition iloc_set_row (df : DataFrame) (i : Z) (vals : list cell) : Result DataFrame :=
  let n := Py.len (index df) in
  let j := if (i <? 0)%Z then (i + n)%Z else i in
  if ((j <? 0) || (n <=? j))%Z
  then Raise (IndexError "iloc cannot enlarge its target object")
  else
    let k := length (cols df) in
    if Nat.eqb (length vals) k
    then Ok (mkFrame (index df) (set_row (cols df) (Z.to_nat j) vals))
    else if Nat.eqb (length vals) 1
    then Ok (mkFrame (index df)
               (set_row (cols df) (Z.to_nat j) (repeat (hd None vals) k)))
    else Raise (ValueError "could not broadcast input array").

(** Row [i] of a frame as (timestamp, cells in column order). *)
Definition row (df : DataFrame) (i : nat) : option (Timestamp * list cell) :=
  match nth_error (index df) i with
  | Some t => Some (t, map (fun c => nth i (snd c) None) (cols df))
  | None => None
  end.

(** The cell of row [i] in the first column labelled [label]. *)
Definition at_ (df : DataFrame) (i : nat) (label : string) : option cell :=
  match find (fun c => String.eqb (fst c) label) (cols df) with
  | Some c => nth_error (snd c) i
  | None => None
  end.

(** *** Column operations *)

Definition has_label (key : string) (c : string * list cell) : bool :=
  String.eqb (fst c) key.

(** What [df[key]] gives: a series when one column carries the label, a
    frame when several do. *)
Inductive Selection : Type :=
| SelSeries (s : Series)
| SelFrame (d : DataFrame).

(** [df[key]] for one label. *)
Definition getitem (df : DataFrame) (key : string) : Result Selection :=
  match filter (has_label key) (cols df) with
  | [] => Raise (KeyError key)
  | [c] => Ok (SelSeries (mkSeries key (combine (index df) (snd c))))
  | cs => Ok (SelFrame (mkFrame (index df) cs))
  end.

(** The columns picked by [df[keys]] for a list of labels, in the order of
    [keys]; a label no column carries is a [KeyError]. *)
Fixpoint pick_columns (cs : list (string * list cell)) (keys : list string)
  : Result (list (string * list cell)) :=
  match keys with
  | [] => Ok []
  | k :: rest =>
      match filter (has_label k) cs with
      | [] => Raise (KeyError k)
      | found => more <- pick_columns cs rest ;; Ok (found ++ more)
      end
  end.

(** [df[keys]] for a list of labels. *)
Definition getitem_list (df : DataFrame) (keys : list string) : Result DataFrame :=
  picked <- pick_columns (cols df) keys ;;
  Ok (mkFrame (index df) picked).

(** [df.rename(columns=mapping)] *)
Definition rename_label (mapping : list (string * string)) (c : string) : string :=
  match find (fun m => String.eqb (fst m) c) mapping with
  | Some m => snd m
  | None => c
  end.

Definition rename_columns (df : DataFrame) (mapping : list (string * string)) : DataFrame :=
  mkFrame (index df) (map (fun c => (rename_label mapping (fst c), snd c)) (cols df)).

(** [df.drop(labels, axis=1)]: every label must be present.  When some
    are not, pandas raises [KeyError] with the message "[...] not found in
    axis" that lists all the missing ones, in the order of [labels]; the
    exception [KeyErrorNotFound] carries that list. *)
Definition drop_columns (df : DataFrame) (labels : list string) : Result DataFrame :=
  match filter (fun l => negb (existsb (String.eqb l) (columns df))) labels with
  | [] =>
      Ok (mkFrame (index df)
            (filter (fun c => negb (existsb (String.eqb (fst c)) labels)) (cols df)))
  | missing => Raise (KeyErrorNotFound missing)
  end.

Fixpoint has_duplicates (l : list Timestamp) : bool :=
  match l with
  | [] => false
  | t :: rest => existsb (Z.eqb t) rest || has_duplicates rest
  end.

Definition lookup (s : Series) (t : Timestamp) : cell :=
  match find (fun it => Z.eqb (fst it) t) (items s) with
  | Some it => snd it
  | None => None
  end.

(** The values of [s.reindex(idx)]: the value of [s] at each label of
    [idx], NaN where [s] has none.  A series with a repeated label cannot
    be reindexed. *)
Definition reindex (s : Series) (idx : list Timestamp) : Result (list cell) :=
  if has_duplicates (s_index s)
  then Raise (ValueError "cannot reindex on an axis with duplicate labels")
  else Ok (map (lookup s) idx).

(** Puts [vals] under [key]: in place of every column so labelled, or as a
    new last column. *)
Definition set_column (cs : list (string * list cell)) (key : string) (vals : list cell)
  : list (string * list cell) :=
  if existsb (has_label key) cs
  then map (fun c => if has_label key c then (key, vals) else c) cs
  else cs ++ [(key, vals)].

Fixpoint index_eqb (a b : list Timestamp) : bool :=
  match a, b with
  | [], [] => true
  | x :: a', y :: b' => Z.eqb x y && index_eqb a' b'
  | _, _ => false
  end.

(** [df[key] = s] for a series [s].  A frame that has no rows yet takes the
    index of a non-empty [s] (its columns become NaN over that index);
    otherwise [s] is aligned to the frame's index unless the two are equal
    or the frame has no rows. *)
Definition setitem_series (df : DataFrame) (key : string) (s : Series) : Result DataFrame :=
  let df1 :=
    match index df, items s with
    | [], _ :: _ =>
        mkFrame (s_index s)
                (map (fun c => (fst c, repeat (@None Q) (length (items s)))) (cols df))
    | _, _ => df
    end in
  vals <- (if index_eqb (s_index s) (index df1) || Nat.eqb (length (index df1)) 0
           then Ok (s_values s)
           else reindex s (index df1)) ;;
  Ok (mkFrame (index df1) (set_column (cols df1) key vals)).

(** [df[key] = value]; a frame is accepted when it has a single column. *)
Definition setitem (df : DataFrame) (key : string) (value : Selection) : Result DataFrame :=
  match value with
  | SelSeries s => setitem_series df key s
  | SelFrame d =>
      match cols d with
      | [c] => setitem_series df key (mkSeries (fst c) (combine (index d) (snd c)))
      | _ => Raise (ValueError "Cannot set a DataFrame with multiple columns to the single column")
      end
  end.

(** *** Dropping rows with a missing value *)

(** For each of the [n] rows, whether every column has a value there. *)
Fixpoint keep_mask (n : nat) (cs : list (list cell)) : list bool :=
  match n with
  | O => []
  | S n' =>
      forallb (fun l => is_present (hd None l)) cs
        :: keep_mask n' (map (@tl cell) cs)
  end.

Fixpoint select {A : Type} (mask : list bool) (l : list A) : list A :=
  match mask, l with
  | b :: mask', a :: l' => if b then a :: select mask' l' else select mask' l'
  | _, _ => []
  end.

(** [df.dropna()] *)
Definition dropna (df : DataFrame) : DataFrame :=
  let mask := keep_mask (length (index df)) (map snd (cols df)) in
  mkFrame (select mask (index df))
          (map (fun c => (fst c, select mask (snd c))) (cols df)).

End Pandas.

(** ** statsmodels: the intercept column and the least-squares solver *)

Module Statsmodels.
Import Pandas.
Local Open Scope Q_scope.

(** The numbers of a column, or [None] when some cell is NaN. *)
Fixpoint all_values (l : list cell) : option (list Q) :=
  match l with
  | [] => Some []
  | None :: _ => None
  | Some q :: t =>
      match all_values t with
      | Some qs => Some (q :: qs)
      | None => None
      end
  end.

(** [np.ptp]: largest minus smallest value of a non-empty column. *)
Definition ptp (h : Q) (t : list Q) : Q :=
  fold_left Qmax t h - fold_left Qmin t h.

(** [safe_is_const] of [add_trend]: the column is constant and not zero,
    [np.ptp(s) == 0.0 and np.any(s != 0.0)].  On an empty column [np.ptp]
    raises and the guard answers [False]; with a NaN the comparison is
    false. *)
Definition safe_is_const (col : list cell) : bool :=
  match all_values col with
  | Some (h :: t) =>
      Qeq_bool (ptp h t) 0 && existsb (fun v => negb (Qeq_bool v 0)) (h :: t)
  | _ => false
  end.

(** [sm.add_constant(x)] for a series [x], with the defaults the source
    leaves in place: [prepend=True], so the column of ones named [const]
    comes FIRST and the data column second; [has_constant='skip'], so a
    series that is itself a non-zero constant gets no extra column. *)
Definition add_constant (x : Series) : DataFrame :=
  let data := (name x, s_values x) in
  if safe_is_const (s_values x)
  then mkFrame (s_index x) [data]
  else mkFrame (s_index x)
         [("const"%string, repeat (Some 1) (length (items x))); data].

(** *** An exact solver

    [sm.OLS(endog, exog).fit().params] with the default method (the
    Moore-Penrose pseudo-inverse), in exact arithmetic: the least-squares
    coefficients, and the ones of least norm when the design does not have
    full column rank.  Designs here have one or two columns, which is all
    [add_constant] makes of a series.

    This is an idealisation: the library computes in IEEE doubles, and its
    coefficients agree with the ones below up to rounding only.  The solver
    serves to run [RollingOLS] on sample data and to tell which coefficient
    belongs to which column of the design; [RollingOLS] itself is defined
    over an arbitrary solver, and no statement about the digits of a
    coefficient is made of the code. *)

Definition dot (u v : list Q) : Q :=
  fold_right Qplus 0 (map (fun p => fst p * snd p) (combine u v)).

Definition lstsq1 (u y : list Q) : list Q :=
  let a := dot u u in
  if Qeq_bool a 0 then [0] else [Qred (dot u y / a)].

Definition lstsq2 (u v y : list Q) : list Q :=
  let a := dot u u in
  let b := dot u v in
  let d := dot v v in
  let p := dot u y in
  let q := dot v y in
  let det := a * d - b * b in
  if Qeq_bool det 0
  then
    if Qeq_bool (a + d) 0 then [0; 0]
    else [Qred (p / (a + d)); Qred (q / (a + d))]
  else [Qred ((d * p - b * q) / det); Qred ((a * q - b * p) / det)].

Fixpoint all_columns (cs : list (string * list cell)) : option (list (list Q)) :=
  match cs with
  | [] => Some []
  | (_, l) :: t =>
      match all_values l, all_columns t with
      | Some qs, Some r => Some (qs :: r)
      | _, _ => None
      end
  end.

(** The checks of the model constructor come first, in statsmodels' order:
    the column maxima (which fail on zero observations and reject NaN in
    the design), then that both operands carry the same index.  A NaN in
    the response is not checked and makes every coefficient NaN. *)
Definition OLS_fit_params (endog : Series) (exog : DataFrame) : Result (list cell) :=
  match index exog with
  | [] => Raise (ValueError "zero-size array to reduction operation maximum which has no identity")
  | _ :: _ =>
    match all_columns (cols exog) with
    | None => Raise (MissingDataError "exog contains inf or nans")
    | Some us =>
      if negb (Pandas.index_eqb (s_index endog) (index exog))
      then Raise (ValueError "The indices for endog and exog are not aligned")
      else
        match all_values (s_values endog) with
        | None => Ok (map (fun _ => None) us)
        | Some y =>
          match us with
          | [u] => Ok (map Some (lstsq1 u y))
          | [u; v] => Ok (map Some (lstsq2 u v y))
          | _ => Raise (ValueError "design with other than one or two columns")
          end
        end
    end
  end.

End Statsmodels.

(** ** The rolling regressor *)

Section Regressor.
Import Pandas.

(** [sm.OLS(y_new, x_new).fit().params], read as a list: the solver is an
    external collaborator, so the regressor is defined over any such
    function; [Statsmodels.OLS_fit_params] is the exact one. *)
Variable fit : Series -> DataFrame -> Result (list cell).

(** One pass of the loop body of [RollingOLS]. *)
Definition RollingOLS_body (y x : Series) (window : Z) (result : DataFrame) (i_start : Z)
  : Result DataFrame :=
  let i_end := (i_start + window)%Z in
  let x_new := Statsmodels.add_constant (series_slice x (Some i_start) (Some i_end)) in
  let y_new := series_slice y (Some i_start) (Some i_end) in
  params <- fit y_new x_new ;;
  iloc_set_row result i_start params.

Definition RollingOLS (y x : Series) (window : Z) : Result DataFrame :=
  let result :=
    new_frame ["x"%string; "intercept"%string]
              (s_index (series_slice y (Some window) None)) in
  for_each (RollingOLS_body y x window)
           (Py.range (Py.len (items y) - window)) result.

End Regressor.

(** The default [window=30]. *)
Definition RollingOLS_default (fit : Pandas.Series -> Pandas.DataFrame -> Result (list cell))
  (y x : Pandas.Series) : Result Pandas.DataFrame :=
  RollingOLS fit y x 30.


(** ** The rolling regressor over objects in memory

    [RollingOLS] above passes values.  In Python the two series are
    objects that the caller still holds after the call, whether it returns
    or raises, and the loop updates the result frame in place.  This second
    embedding of the same function keeps the objects in a heap, so that
    what a call writes can be stated. *)

Module Mem.
Import Pandas.

Inductive Obj : Type :=
| OSeries (s : Series)
| OFrame (d : DataFrame).

(** A computation that reads and writes the heap and may raise.  A
    reference is a position in the heap.  The heap comes back in both
    cases: what was written before an exception stays written. *)
Definition M (A : Type) : Type := list Obj -> Result A * list Obj.

Definition ret {A : Type} (a : A) : M A := fun h => (Ok a, h).

Definition bindM {A B : Type} (m : M A) (k : A -> M B) : M B :=
  fun h =>
    match m h with
    | (Ok a, h') => k a h'
    | (Raise e, h') => (Raise e, h')
    end.

Definition lift {A : Type} (r : Result A) : M A := fun h => (r, h).

(** A new object goes to the end of the heap. *)
Definition alloc (o : Obj) : M nat := fun h => (Ok (length h), h ++ [o]).

Definition read_series (r : nat) : M Series :=
  fun h =>
    match nth_error h r with
    | Some (OSeries s) => (Ok s, h)
    | _ => (Raise (TypeError "not a Series"), h)
    end.

Definition read_frame (r : nat) : M DataFrame :=
  fun h =>
    match nth_error h r with
    | Some (OFrame d) => (Ok d, h)
    | _ => (Raise (TypeError "not a DataFrame"), h)
    end.

Definition write (r : nat) (o : Obj) : M unit :=
  fun h => (Ok tt, list_set h r o).

Fixpoint for_each_m {I : Type} (body : I -> M unit) (its : list I) : M unit :=
  match its with
  | [] => ret tt
  | i :: rest => bindM (body i) (fun _ => for_each_m body rest)
  end.

(** [s[lo:hi]]: a new series object. *)
Definition slice_m (r : nat) (lo hi : option Z) : M nat :=
  bindM (read_series r) (fun s => alloc (OSeries (series_slice s lo hi))).

(** [s.index] *)
Definition index_m (r : nat) : M (list Timestamp) :=
  bindM (read_series r) (fun s => ret (s_index s)).

(** [len(s)] *)
Definition len_m (r : nat) : M Z :=
  bindM (read_series r) (fun s => ret (Py.len (items s))).

(** [sm.add_constant(s)]: a new frame object. *)
Definition add_constant_m (r : nat) : M nat :=
  bindM (read_series r) (fun s => alloc (OFrame (Statsmodels.add_constant s))).

(** [df.iloc[i] = vals]: the frame object is updated in place. *)
Definition iloc_set_row_m (r : nat) (i : Z) (vals : list cell) : M unit :=
  bindM (read_frame r) (fun d =>
  bindM (lift (iloc_set_row d i vals)) (fun d' =>
  write r (OFrame d'))).

Section InPlace.

(** [sm.OLS(endog, exog).fit().params] on two objects: any computation
    over the heap. *)
Variable solver : nat -> nat -> M (list cell).

Definition RollingOLS_body_m (y x : nat) (window : Z) (result : nat) (i_start : Z) : M unit :=
  let i_end := (i_start + window)%Z in
  bindM (slice_m x (Some i_start) (Some i_end)) (fun x_sub =>
  bindM (add_constant_m x_sub) (fun x_new =>
  bindM (slice_m y (Some i_start) (Some i_end)) (fun y_new =>
  bindM (solver y_new x_new) (fun params =>
  iloc_set_row_m result i_start params)))).

Definition RollingOLS_m (y x : nat) (window : Z) : M nat :=
  bindM (slice_m y (Some window) None) (fun tail =>
  bindM (index_m tail) (fun idx =>
  bindM (alloc (OFrame (new_frame ["x"%string; "intercept"%string] idx))) (fun result =>
  bindM (len_m y) (fun n =>
  bindM (for_each_m (RollingOLS_body_m y x window result) (Py.range (n - window)))
        (fun _ => ret result))))).

End InPlace.

(** The solver that reads its two operands and computes [fit] of them. *)
Definition fit_m (fit : Series -> DataFrame -> Result (list cell)) (endog exog : nat)
  : M (list cell) :=
  bindM (read_series endog) (fun ys =>
  bindM (read_frame exog) (fun xd =>
  lift (fit ys xd))).

(** What a run hands back to the caller: the frame behind the returned
    reference, or the exception. *)
Definition returned (r : Result nat * list Obj) : Result DataFrame :=
  match r with
  | (Ok ref, h) =>
      match nth_error h ref with
      | Some (OFrame d) => Ok d
      | _ => Raise (TypeError "not a DataFrame")
      end
  | (Raise e, _) => Raise e
  end.

(** Every object of [h] is still there, unchanged, in [h']. *)
Definition unchanged (h h' : list Obj) : Prop :=
  forall l : nat, l < length h -> nth_error h' l = nth_error h l.

(** While the loop runs on the heap [h'], started from [h]: the objects
    of [h] are untouched and the result frame, made after them, is [r]. *)
Definition loop_inv (h : list Obj) (result : nat) (r : DataFrame) (h' : list Obj) : Prop :=
  unchanged h h' /\ nth_error h' result = Some (OFrame r) /\ length h <= result.

(** The solver as the regressor needs it: on a series and a frame its
    outcome, coefficients or exception, is [fit] of their values, and
    whatever it allocates, it leaves every object it finds as it is. *)
Definition reads_only (solver : nat -> nat -> M (list cell))
  (fit : Series -> DataFrame -> Result (list cell)) : Prop :=
  forall (h : list Obj) (endog exog : nat) (ys : Series) (xd : DataFrame),
    nth_error h endog = Some (OSeries ys) ->
    nth_error h exog = Some (OFrame xd) ->
    fst (solver endog exog h) = fit ys xd /\ unchanged h (snd (solver endog exog h)).

End Mem.

(** ** The price fetcher *)

(** The [symbol] argument: one ticker or a Python list of tickers. *)
Inductive SymbolArg : Type :=
| Symbol (s : string)
| Symbols (l : list string).

(** The [fields] argument: [None], a string, or a list of strings. *)
Inductive FieldsArg : Type :=
| NoFields
| FieldStr (s : string)
| FieldList (l : list string).

(** Python truth value of [fields]. *)
Definition fields_given (fields : FieldsArg) : bool :=
  match fields with
  | NoFields => false
  | FieldStr s => negb (String.eqb s EmptyString)
  | FieldList l => negb (Nat.eqb (length l) 0)
  end.

(** [''.join(fields)]: a string is joined character by character and
    comes back unchanged; the names of a list are glued together. *)
Definition join_fields (fields : FieldsArg) : string :=
  match fields with
  | NoFields => EmptyString
  | FieldStr s => s
  | FieldList l => Py.join_empty l
  end.

(** One call of the provider: [yf.Ticker(symbol).history(start=, end=,
    interval=)]. *)
Record Request : Type := mkRequest {
  req_symbol : SymbolArg;
  req_start : string;
  req_end : string;
  req_interval : string
}.

Definition native_columns : list string :=
  ["Open"; "High"; "Low"; "Close"; "Volume"; "Dividends"; "Stock Splits"]%string.

Definition normalized_columns : list string :=
  ["open_price"; "high"; "low"; "close_price"; "volume"; "price"]%string.

Section Fetcher.
Import Pandas.

(** The market-data provider and the clock are external. *)
Variable history : Request -> Result DataFrame.
Variable now : string.

Definition interval_of (frequency : string) : string :=
  if String.eqb frequency "daily" then "1d"%string
  else if String.eqb frequency "minute" then "1m"%string
  else frequency.

(** The "process data" and "only return given fields" steps. *)
Definition process (df : DataFrame) (fields : FieldsArg) : Result DataFrame :=
  let df := rename_columns df
              [("Open", "open_price"); ("High", "high"); ("Low", "low");
               ("Close", "close_price"); ("Volume", "volume")]%string in
  df <- drop_columns df ["Dividends"; "Stock Splits"]%string ;;
  close <- getitem df "close_price" ;;
  df <- setitem df "price" close ;;
  if fields_given fields
  then getitem_list df (Py.split_comma (join_fields fields))
  else Ok df.

(** The body of [get_pricing] below the multi-symbol branch.  It returns
    the provider calls it made together with its result. *)
Definition fetch_one (symbol : SymbolArg) (start_date : string) (end_date : option string)
  (frequency : string) (fields : FieldsArg) : list Request * Result DataFrame :=
  let end_date :=
    match end_date with
    | Some d => if String.eqb d EmptyString then now else d
    | None => now
    end in
  let frequency := interval_of frequency in
  let req := mkRequest symbol start_date end_date frequency in
  ([req], df <- history req ;; process df fields).

(** [df[fields]] as the multi-symbol branch writes it, with [fields] as
    the caller passed it. *)
Definition getitem_fields (df : DataFrame) (fields : FieldsArg) : Result Selection :=
  match fields with
  | NoFields => Raise (KeyError "None")
  | FieldStr s => getitem df s
  | FieldList l => d <- getitem_list df l ;; Ok (SelFrame d)
  end.

(** The loop of the multi-symbol branch.  The recursive call
    [get_pricing(item, ...)] has a single ticker for [symbol], so it runs
    [fetch_one]. *)
Fixpoint fetch_each (symbols : list string) (start_date : string) (end_date : option string)
  (frequency : string) (fields : FieldsArg) (prices_df : DataFrame)
  : list Request * Result DataFrame :=
  match symbols with
  | [] => ([], Ok prices_df)
  | item :: rest =>
      let (calls, fetched) := fetch_one (Symbol item) start_date end_date frequency fields in
      match (df <- fetched ;; sel <- getitem_fields df fields ;; setitem prices_df item sel) with
      | Ok prices_df' =>
          let (calls', r) := fetch_each rest start_date end_date frequency fields prices_df' in
          (calls ++ calls', r)
      | Raise e => (calls, Raise e)
      end
  end.

Definition get_pricing (symbol : SymbolArg) (start_date : string) (end_date : option string)
  (frequency : string) (fields : FieldsArg) : list Request * Result DataFrame :=
  match symbol with
  | Symbols l =>
      if fields_given fields
      then
        let (calls, r) := fetch_each l start_date end_date frequency fields empty_frame in
        (calls, df <- r ;; Ok (dropna df))
      else fetch_one symbol start_date end_date frequency fields
  | Symbol _ => fetch_one symbol start_date end_date frequency fields
  end.

End Fetcher.

(** ** Contracts used in the statements *)

Section RegressorContract.
Import Pandas.

Variable fit : Series -> DataFrame -> Result (list cell).

(** The two sub-windows the pass at start offset [i] hands to the solver. *)
Definition y_window (y : Series) (window i : Z) : Series :=
  series_slice y (Some i) (Some (i + window)%Z).

Definition x_window (x : Series) (window i : Z) : DataFrame :=
  Statsmodels.add_constant (series_slice x (Some i) (Some (i + window)%Z)).

(** Every pass gets two coefficients from the solver: no solver-level
    failure, and a design of two columns. *)
Definition fits_ok (y x : Series) (window : Z) : Prop :=
  forall i : Z, (0 <= i < Py.len (items y) - window)%Z ->
    exists c0 c1 : cell, fit (y_window y window i) (x_window x window i) = Ok [c0; c1].

End RegressorContract.

(** The shape the result frame of [RollingOLS] has while every pass writes
    a pair. *)
Definition two_columns (idx : list Timestamp) (df : Pandas.DataFrame) : Prop :=
  Pandas.index df = idx /\
  exists cx ci : list cell,
    Pandas.cols df = [("x"%string, cx); ("intercept"%string, ci)] /\
    length cx = length idx /\ length ci = length idx.

(** The shape of any frame [RollingOLS] returns. *)
Definition result_shape (idx : list Timestamp) (df : Pandas.DataFrame) : Prop :=
  Pandas.index df = idx /\
  Pandas.columns df = ["x"; "intercept"]%string /\
  Forall (fun c => length (snd c) = length idx) (Pandas.cols df).

(** *** Sums of squares *)

Definition sum (l : list Q) : Q := fold_right Qplus 0%Q l.

(** The (population) variance of the values of a window. *)
Definition variance (l : list Q) : Q :=
  let n := inject_Z (Z.of_nat (length l)) in
  let m := (sum l / n)%Q in
  (sum (map (fun v => (v - m) * (v - m))%Q l) / n)%Q.

(** The sum of squared residuals of the line [c0 * u + c1 * v] against
    [y], over rows (u, v, y). *)
Definition sse (rows : list (Q * Q * Q)) (c0 c1 : Q) : Q :=
  sum (map (fun r => let '(u, v, y) := r in
                     ((y - (c0 * u + c1 * v)) * (y - (c0 * u + c1 * v)))%Q) rows).

(** The rows (1, x, y) of the regression of [ys] on [xs] with an
    intercept: the coefficient of the first entry is the intercept, that
    of the second the slope. *)
Definition regression_rows (xs ys : list Q) : list (Q * Q * Q) :=
  map (fun p => (1%Q, fst p, snd p)) (combine xs ys).

(** The three columns of a list of rows. *)
Definition col_u (rows : list (Q * Q * Q)) : list Q := map (fun r => fst (fst r)) rows.
Definition col_v (rows : list (Q * Q * Q)) : list Q := map (fun r => snd (fst r)) rows.
Definition col_y (rows : list (Q * Q * Q)) : list Q := map (fun r => snd r) rows.

(** The numbers of the pass at start offset [i], when none is NaN. *)
Definition window_values (s : Pandas.Series) (window i : Z) : option (list Q) :=
  Statsmodels.all_values
    (Pandas.s_values (Pandas.series_slice s (Some i) (Some (i + window)%Z))).

(** [fits_ok] as a check that runs. *)
Definition fits_okb (fit : Pandas.Series -> Pandas.DataFrame -> Result (list cell))
  (y x : Pandas.Series) (window : Z) : bool :=
  forallb (fun i => match fit (y_window y window i) (x_window x window i) with
                    | Ok [_; _] => true
                    | _ => false
                    end)
          (Py.range (Py.len (Pandas.items y) - window)).

(** ** Sample data *)

(** The series with timestamps [t0, t0+1, ...] and the given integer
    values. *)
Definition series_from (label : string) (t0 : Z) (values : list Z) : Pandas.Series :=
  Pandas.mkSeries label
    (map (fun p => ((t0 + Z.of_nat (fst p))%Z, Some (inject_Z (snd p))))
         (combine (seq 0 (length values)) values)).

Definition y_demo : Pandas.Series := series_from "y" 10 [1; 3; 5; 9]%Z.
Definition x_demo : Pandas.Series := series_from "x" 10 [0; 1; 2; 3]%Z.

(** Forty observations: [x] counts up and [y] is its square. *)
Definition x_forty : Pandas.Series :=
  series_from "x" 0 (map Z.of_nat (seq 0 40)).
Definition y_forty : Pandas.Series :=
  series_from "y" 0 (map (fun k => Z.of_nat (k * k)) (seq 0 40)).

(** One series used on both sides of the regression. *)
Definition same_demo : Pandas.Series := series_from "s" 0 [1; 2; 4; 7; 11; 16; 22]%Z.

(** The sample series with another newest observation. *)
Definition y_demo_late : Pandas.Series := series_from "y" 10 [1; 3; 5; 100]%Z.
Definition x_demo_late : Pandas.Series := series_from "x" 10 [0; 1; 2; 50]%Z.

(** A regressor with a missing value at its third observation. *)
Definition x_gap : Pandas.Series :=
  Pandas.mkSeries "x" [(10%Z, Some 0%Q); (11%Z, Some 1%Q); (12%Z, None); (13%Z, Some 3%Q)].

(** The point (x, y) lies on the line with the given slope and intercept. *)
Definition on_line (slope intercept : Q) (p : cell * cell) : Prop :=
  match p with
  | (Some xv, Some yv) => (yv == slope * xv + intercept)%Q
  | _ => False
  end.

(** The observations (x, y) of the pass at start offset [i]. *)
Definition window_points (y x : Pandas.Series) (window i : Z) : list (cell * cell) :=
  combine (Pandas.s_values (Pandas.series_slice x (Some i) (Some (i + window)%Z)))
          (Pandas.s_values (y_window y window i)).

Section FetcherContract.
Import Pandas.

(** Every column has one cell per row. *)
Definition well_formed (df : DataFrame) : Prop :=
  Forall (fun c => length (snd c) = length (index df)) (cols df).

(** The provider's native table: its seven columns in its order. *)
Definition native_table (t : DataFrame) : Prop :=
  columns t = native_columns /\ well_formed t.

(** The cells of the first column labelled [label]; no cells when there is
    none. *)
Definition column_of (df : DataFrame) (label : string) : list cell :=
  match find (has_label label) (cols df) with
  | Some c => snd c
  | None => []
  end.

(** [fields] names the one field [f]. *)
Definition single_field (fields : FieldsArg) (f : string) : Prop :=
  fields = FieldStr f \/ fields = FieldList [f].

(** The provider column a normalized field is read from. *)
Definition native_label (f : string) : string :=
  if String.eqb f "open_price" then "Open"
  else if String.eqb f "high" then "High"
  else if String.eqb f "low" then "Low"
  else if String.eqb f "close_price" then "Close"
  else if String.eqb f "volume" then "Volume"
  else if String.eqb f "price" then "Close"
  else f.

(** The field [f] of a provider table as a series. *)
Definition field_series (t : DataFrame) (f : string) : Series :=
  mkSeries f (combine (index t) (column_of t (native_label f))).

(** The request [get_pricing] sends for one argument. *)
Definition request_for (now : string) (start_date : string) (end_date : option string)
  (frequency : string) (symbol : SymbolArg) : Request :=
  mkRequest symbol start_date
    (match end_date with
     | Some d => if String.eqb d EmptyString then now else d
     | None => now
     end)
    (if String.eqb frequency "daily" then "1d"
     else if String.eqb frequency "minute" then "1m"
     else frequency)%string.

End FetcherContract.

Section Assembly.
Import Pandas.

(** The per-symbol series the multi-symbol loop puts side by side. *)
Variable series_of : string -> Series.

(** The value of symbol [s] at timestamp [ts]; NaN when it has none. *)
Definition quote (s : string) (ts : Timestamp) : cell := lookup (series_of s) ts.

(** Every symbol of [l] has a value at [ts]. *)
Definition all_present (l : list string) (ts : Timestamp) : bool :=
  forallb (fun s => is_present (quote s ts)) l.

(** The index the frame under assembly has after the symbols [l]: that of
    the first series with any row. *)
Fixpoint first_index (l : list string) : list Timestamp :=
  match l with
  | [] => []
  | s :: rest =>
      match items (series_of s) with
      | [] => first_index rest
      | _ :: _ => s_index (series_of s)
      end
  end.

(** The frame under assembly after the symbols [l]. *)
Definition assembled (l : list string) : DataFrame :=
  mkFrame (first_index l) (map (fun s => (s, map (quote s) (first_index l))) l).

(** The timestamps of the first symbol. *)
Definition leading_index (l : list string) : list Timestamp :=
  match l with
  | [] => []
  | s :: _ => s_index (series_of s)
  end.

End Assembly.

(** A provider with two tickers.  [A] has bars at 1, 2, 3 with no close at
    3; [B] has bars at 2, 3, 4. *)
Definition native_of (rows : list (Z * list (option Z))) : Pandas.DataFrame :=
  Pandas.mkFrame (map fst rows)
    (map (fun j =>
            (nth j native_columns EmptyString,
             map (fun r => match nth j (snd r) None with
                           | Some z => Some (inject_Z z)
                           | None => None
                           end) rows))
         (seq 0 7)).

Definition table_A : Pandas.DataFrame :=
  native_of [(1, [Some 1; Some 2; Some 3; Some 4; Some 5; Some 0; Some 0]);
             (2, [Some 11; Some 12; Some 13; Some 14; Some 15; Some 0; Some 0]);
             (3, [Some 21; Some 22; Some 23; None; Some 25; Some 0; Some 0])]%Z.

Definition table_B : Pandas.DataFrame :=
  native_of [(2, [Some 11; Some 12; Some 13; Some 140; Some 15; Some 0; Some 0]);
             (3, [Some 21; Some 22; Some 23; Some 240; Some 25; Some 0; Some 0]);
             (4, [Some 1; Some 2; Some 3; Some 4; Some 5; Some 0; Some 0])]%Z.

Definition demo_table (s : string) : Pandas.DataFrame :=
  if String.eqb s "A" then table_A else table_B.

Definition demo_history (r : Request) : Result Pandas.DataFrame :=
  match req_symbol r with
  | Symbol s =>
      if String.eqb s "A" then Ok table_A
      else if String.eqb s "B" then Ok table_B
      else Raise (KeyError s)
  | Symbols _ => Raise (ValueError "unhashable type: list")
  end.

(** A provider that has no data: it answers with a frame without rows
    or columns. *)
Definition no_data_history (r : Request) : Result Pandas.DataFrame :=
  Ok Pandas.empty_frame.

(** The table the "process data" step makes of a native table: the five
    renamed columns and [price], under the provider's rows. *)
Definition normalized_frame (t : Pandas.DataFrame) : Pandas.DataFrame :=
  Pandas.mkFrame (Pandas.index t)
    (map (fun f => (f, column_of t (native_label f))) normalized_columns).

(** * Facts *)

(** ** Lists, slices and loops *)

Lemma len_nonneg {A : Type} (l : list A) : (0 <= Py.len l)%Z.
Proof. unfold Py.len. lia. Qed.

Lemma range_nonpos (n : Z) : (n <= 0)%Z -> Py.range n = [].
Proof.
  intros Hn. unfold Py.range.
  replace (Z.to_nat n) with O by lia. reflexivity.
Qed.

Lemma slice_from {A : Type} (l : list A) (w : Z) :
  (0 <= w)%Z -> Py.slice l (Some w) None = skipn (Z.to_nat w) l.
Proof.
  intros Hw. unfold Py.slice, Py.clamp.
  destruct (Z.ltb_spec w 0) as [Hneg | _]; [lia |].
  unfold Py.len.
  destruct (Z.le_gt_cases w (Z.of_nat (length l))) as [Hle | Hgt].
  - rewrite Z.min_l by assumption.
    apply firstn_all2. rewrite length_skipn. lia.
  - rewrite Z.min_r by lia.
    rewrite Nat2Z.id, skipn_all. simpl.
    rewrite firstn_nil.
    symmetry. apply skipn_all2. lia.
Qed.

Lemma slice_window {A : Type} (l : list A) (i w : Z) :
  (0 <= i)%Z -> (0 <= w)%Z ->
  Py.slice l (Some i) (Some (i + w)%Z) = firstn (Z.to_nat w) (skipn (Z.to_nat i) l).
Proof.
  intros Hi Hw. unfold Py.slice, Py.clamp.
  destruct (Z.ltb_spec i 0) as [Hneg | _]; [lia |].
  destruct (Z.ltb_spec (i + w) 0) as [Hneg | _]; [lia |].
  unfold Py.len. set (n := length l).
  destruct (Z.le_gt_cases i (Z.of_nat n)) as [Hin | Hout].
  - rewrite (Z.min_l i) by assumption.
    destruct (Z.le_gt_cases (i + w) (Z.of_nat n)) as [Hfit | Hover].
    + rewrite Z.min_l by assumption. f_equal. lia.
    + rewrite Z.min_r by lia.
      rewrite !firstn_all2; [reflexivity | |]; rewrite length_skipn; fold n; lia.
  - rewrite !Z.min_r by lia.
    rewrite Nat2Z.id. unfold n. rewrite skipn_all, firstn_nil.
    rewrite skipn_all2 by (fold n; lia). now rewrite firstn_nil.
Qed.

(** A loop over [range(n)] whose passes all succeed: an invariant indexed
    by the number of passes done carries from the start to the end. *)
Lemma for_each_seq_inv {S : Type} (body : S -> Z -> Result S) (P : nat -> S -> Prop) :
  forall (len start : nat) (s : S),
    P start s ->
    (forall k s0, start <= k < start + len -> P k s0 ->
       exists s1, body s0 (Z.of_nat k) = Ok s1 /\ P (Datatypes.S k) s1) ->
    exists s', for_each body (map Z.of_nat (seq start len)) s = Ok s' /\ P (start + len) s'.
Proof.
  induction len as [| len IH]; intros start s Hs Hstep; simpl.
  - exists s. rewrite Nat.add_0_r. auto.
  - destruct (Hstep start s) as (s1 & Hbody & Hs1); [lia | assumption |].
    rewrite Hbody. simpl.
    destruct (IH (Datatypes.S start) s1 Hs1) as (s' & Hrun & Hs').
    + intros k s0 Hk. apply Hstep. lia.
    + exists s'. split; [assumption |].
      now replace (start + Datatypes.S len) with (Datatypes.S start + len) by lia.
Qed.

Lemma for_each_range_inv {S : Type} (body : S -> Z -> Result S) (P : nat -> S -> Prop)
  (n : Z) (s : S) :
  P O s ->
  (forall k s0, (Z.of_nat k < n)%Z -> P k s0 ->
     exists s1, body s0 (Z.of_nat k) = Ok s1 /\ P (Datatypes.S k) s1) ->
  exists s', for_each body (Py.range n) s = Ok s' /\ P (Z.to_nat n) s'.
Proof.
  intros H0 Hstep. unfold Py.range.
  apply for_each_seq_inv with (P := P) (start := O); [exact H0 |].
  intros k s0 Hk. apply Hstep. lia.
Qed.

(** ** pandas: writing one row *)

Lemma length_list_set {A : Type} (l : list A) (i : nat) (v : A) :
  length (Pandas.list_set l i v) = length l.
Proof.
  revert i; induction l as [| h t IH]; intros [| i]; simpl; auto.
Qed.

Lemma nth_list_set_eq {A : Type} (l : list A) (i : nat) (v d : A) :
  i < length l -> nth i (Pandas.list_set l i v) d = v.
Proof.
  revert i; induction l as [| h t IH]; intros [| i] Hi; simpl in *; try lia; auto.
  apply IH. lia.
Qed.

Lemma nth_list_set_ne {A : Type} (l : list A) (i j : nat) (v d : A) :
  i <> j -> nth j (Pandas.list_set l i v) d = nth j l d.
Proof.
  revert i j; induction l as [| h t IH]; intros [| i] [| j] Hne; simpl; auto; try lia.
Qed.

Lemma new_frame_two_columns (idx : list Timestamp) :
  two_columns idx (Pandas.new_frame ["x"%string; "intercept"%string] idx).
Proof.
  split; [reflexivity |].
  exists (repeat None (length idx)), (repeat None (length idx)).
  simpl. rewrite repeat_length. auto.
Qed.

(** Writing a pair into an existing row succeeds, keeps the shape, puts
    the pair into that row in the order given, and leaves the other rows. *)
Lemma iloc_set_row_pair (idx : list Timestamp) (df : Pandas.DataFrame) (k : nat) (c0 c1 : cell) :
  two_columns idx df -> k < length idx ->
  exists df', Pandas.iloc_set_row df (Z.of_nat k) [c0; c1] = Ok df' /\
    two_columns idx df' /\
    (forall t, nth_error idx k = Some t -> Pandas.row df' k = Some (t, [c0; c1])) /\
    (forall j, j <> k -> Pandas.row df' j = Pandas.row df j).
Proof.
  intros (Hidx & cx & ci & Hcols & Hx & Hi) Hk.
  unfold Pandas.iloc_set_row. rewrite Hidx, Hcols. unfold Py.len.
  destruct (Z.ltb_spec (Z.of_nat k) 0) as [Hneg | _]; [lia |].
  destruct (Z.ltb_spec (Z.of_nat k) 0) as [Hneg | _]; [lia |].
  destruct (Z.leb_spec (Z.of_nat (length idx)) (Z.of_nat k)) as [Hout | _]; [lia |].
  simpl. rewrite Nat2Z.id.
  eexists. split; [reflexivity |].
  split; [| split].
  - split; [reflexivity |].
    do 2 eexists. split; [reflexivity |].
    now rewrite !length_list_set.
  - intros t Ht. unfold Pandas.row. simpl. rewrite Ht. simpl.
    rewrite (nth_list_set_eq cx), (nth_list_set_eq ci); [reflexivity | lia | lia].
  - intros j Hj. unfold Pandas.row. rewrite Hidx, Hcols. simpl.
    destruct (nth_error idx j); [| reflexivity].
    simpl. rewrite !nth_list_set_ne by auto. reflexivity.
Qed.

(** ** The rolling regressor: what a call returns *)

Section RegressorFacts.
Import Pandas.

Variable fit : Series -> DataFrame -> Result (list cell).

Lemma result_index (y : Series) (window : Z) :
  (0 <= window)%Z ->
  s_index (series_slice y (Some window) None) = skipn (Z.to_nat window) (s_index y).
Proof.
  intros Hw. unfold s_index, series_slice. simpl.
  rewrite slice_from by assumption. symmetry. apply skipn_map.
Qed.

(** With every pass succeeding, the call returns a frame over [y]'s
    timestamps from position [window] on, and row [i] holds, position by
    position, what the solver returned for the sub-windows at offset [i]. *)
Lemma RollingOLS_rows (y x : Series) (window : Z) :
  (0 <= window)%Z ->
  fits_ok fit y x window ->
  exists df,
    RollingOLS fit y x window = Ok df /\
    two_columns (skipn (Z.to_nat window) (s_index y)) df /\
    forall (i : nat) (t : Timestamp) (params : list cell),
      (Z.of_nat i < Py.len (items y) - window)%Z ->
      nth_error (s_index y) (Z.to_nat window + i) = Some t ->
      fit (y_window y window (Z.of_nat i)) (x_window x window (Z.of_nat i)) = Ok params ->
      row df i = Some (t, params).
Proof.
  intros Hw Hfits. unfold RollingOLS.
  rewrite result_index by assumption.
  set (idx := skipn (Z.to_nat window) (s_index y)).
  set (n := (Py.len (items y) - window)%Z).
  assert (Hlen : forall k : nat, (Z.of_nat k < n)%Z -> k < length idx).
  { intros k Hk. unfold idx, s_index. rewrite length_skipn, length_map.
    unfold n, Py.len in Hk. lia. }
  pose (P := fun (k : nat) (df : DataFrame) =>
    two_columns idx df /\
    forall (i : nat) (t : Timestamp) (params : list cell),
      i < k ->
      nth_error idx i = Some t ->
      fit (y_window y window (Z.of_nat i)) (x_window x window (Z.of_nat i)) = Ok params ->
      row df i = Some (t, params)).
  destruct (@for_each_range_inv DataFrame (RollingOLS_body fit y x window) P n
              (new_frame ["x"%string; "intercept"%string] idx)) as (df & Hrun & Hshape & Hrows).
  - split; [apply new_frame_two_columns |]. intros; lia.
  - intros k df0 Hk (Hshape & Hrows).
    destruct (Hfits (Z.of_nat k)) as (c0 & c1 & Hfit); [fold n; lia |].
    unfold RollingOLS_body.
    unfold y_window, x_window in Hfit. rewrite Hfit. simpl.
    destruct (@iloc_set_row_pair idx df0 k c0 c1 Hshape (Hlen k Hk))
      as (df1 & Hset & Hshape1 & Hnew & Hold).
    exists df1. split; [assumption |]. split; [assumption |].
    intros i t params Hi Ht Hp.
    destruct (Nat.eq_dec i k) as [-> | Hne].
    + unfold y_window, x_window in Hp. rewrite Hfit in Hp. injection Hp as <-.
      now apply Hnew.
    + rewrite Hold by assumption. apply Hrows; [lia | assumption | assumption].
  - exists df. split; [assumption |]. split; [assumption |].
    intros i t params Hi Ht Hp.
    apply Hrows; [lia | | assumption].
    unfold idx. now rewrite nth_error_skipn.
Qed.

End RegressorFacts.

Lemma fits_okb_sound (fit : Pandas.Series -> Pandas.DataFrame -> Result (list cell))
  (y x : Pandas.Series) (window : Z) :
  fits_okb fit y x window = true -> fits_ok fit y x window.
Proof.
  unfold fits_okb, fits_ok. rewrite forallb_forall. intros Hall i Hi.
  specialize (Hall i).
  assert (Hin : In i (Py.range (Py.len (Pandas.items y) - window))).
  { unfold Py.range. apply in_map_iff. exists (Z.to_nat i).
    split; [lia |]. apply in_seq. lia. }
  specialize (Hall Hin).
  destruct (fit (y_window y window i) (x_window x window i)) as [[| c0 [| c1 [| ? ?]]] | e];
    try discriminate.
  now exists c0, c1.
Qed.

(** ** The rolling regressor: whatever the solver returns, the frame keeps its shape *)

Lemma for_each_preserves {S I : Type} (body : S -> I -> Result S) (P : S -> Prop) :
  (forall s i s', P s -> body s i = Ok s' -> P s') ->
  forall (its : list I) (s s' : S), P s -> for_each body its s = Ok s' -> P s'.
Proof.
  intros Hbody. induction its as [| i its IH]; intros s s' Hs Hrun; simpl in Hrun.
  - now injection Hrun as <-.
  - destruct (body s i) as [s1 |] eqn:Hstep; [| discriminate].
    simpl in Hrun. apply (IH s1); [| assumption].
    now apply (Hbody s i).
Qed.

Lemma set_row_labels (cs : list (string * list cell)) (i : nat) (vals : list cell) :
  map fst (Pandas.set_row cs i vals) = map fst cs.
Proof.
  revert vals; induction cs as [| [c l] cs IH]; intros [| v vals]; simpl; auto.
  now rewrite IH.
Qed.

Lemma set_row_lengths (cs : list (string * list cell)) (i : nat) (vals : list cell) (n : nat) :
  Forall (fun c => length (snd c) = n) cs ->
  Forall (fun c => length (snd c) = n) (Pandas.set_row cs i vals).
Proof.
  revert vals; induction cs as [| [c l] cs IH]; intros [| v vals] Hall; simpl; auto.
  inversion Hall as [| ? ? Hc Hrest]; subst. constructor.
  - simpl in *. now rewrite length_list_set.
  - now apply IH.
Qed.

Lemma iloc_set_row_shape (idx : list Timestamp) (df df' : Pandas.DataFrame) (i : Z)
  (vals : list cell) :
  result_shape idx df -> Pandas.iloc_set_row df i vals = Ok df' -> result_shape idx df'.
Proof.
  intros (Hidx & Hlabels & Hlens). unfold Pandas.iloc_set_row.
  destruct (_ || _)%bool; [discriminate |].
  destruct (Nat.eqb _ _); [| destruct (Nat.eqb _ _); [| discriminate]];
    intros Hok; injection Hok as <-; unfold result_shape, Pandas.columns; simpl;
    rewrite set_row_labels; (split; [assumption |]); (split; [assumption |]);
    now apply set_row_lengths.
Qed.

Lemma RollingOLS_returned_shape
  (fit : Pandas.Series -> Pandas.DataFrame -> Result (list cell))
  (y x : Pandas.Series) (window : Z) (df : Pandas.DataFrame) :
  (0 <= window)%Z ->
  RollingOLS fit y x window = Ok df ->
  result_shape (skipn (Z.to_nat window) (Pandas.s_index y)) df.
Proof.
  intros Hw. unfold RollingOLS. rewrite result_index by assumption.
  apply for_each_preserves.
  - intros r i r' Hr. unfold RollingOLS_body.
    destruct (fit _ _) as [params |]; [| discriminate]. simpl.
    now apply iloc_set_row_shape.
  - unfold result_shape, Pandas.new_frame, Pandas.columns. simpl.
    repeat split. repeat constructor; simpl; apply repeat_length.
Qed.

(** ** Claims about the shape of the output *)

(** C3. For a call with a positive [window] that is at most [len(y)]:
    whenever the call returns, the frame has exactly [len(y) - window] rows
    (each column has that many cells), which for forty observations and
    [window = 30] is ten rows; and the call does return when every pass of
    the solver succeeds. *)
Theorem RollingOLS_row_count
  (fit : Pandas.Series -> Pandas.DataFrame -> Result (list cell))
  (y x : Pandas.Series) (window : Z) :
  (0 < window)%Z ->
  (window <= Py.len (Pandas.items y))%Z ->
  (forall df,
     RollingOLS fit y x window = Ok df ->
     Py.len (Pandas.index df) = (Py.len (Pandas.items y) - window)%Z /\
     Forall (fun c => length (snd c) = length (Pandas.index df)) (Pandas.cols df) /\
     (Py.len (Pandas.items y) = 40%Z -> window = 30%Z -> length (Pandas.index df) = 10)) /\
  (fits_ok fit y x window -> exists df, RollingOLS fit y x window = Ok df).
Proof.
  intros Hpos Hle. split.
  - intros df Hrun.
    destruct (@RollingOLS_returned_shape fit y x window df) as (Hidx & _ & Hlens);
      [lia | assumption |].
    assert (Hlen : Py.len (Pandas.index df) = (Py.len (Pandas.items y) - window)%Z).
    { rewrite Hidx. unfold Py.len, Pandas.s_index in *.
      rewrite length_skipn, length_map. lia. }
    repeat split.
    + assumption.
    + now rewrite Hidx.
    + intros H40 H30. unfold Py.len in *. lia.
  - intros Hfits.
    destruct (@RollingOLS_rows fit y x window) as (df & Hrun & _);
      [lia | assumption |].
    now exists df.
Qed.

Lemma RollingOLS_row_count_witness :
  exists df,
    RollingOLS_default Statsmodels.OLS_fit_params y_forty x_forty = Ok df /\
    length (Pandas.index df) = 10.
Proof.
  destruct (@RollingOLS_row_count Statsmodels.OLS_fit_params y_forty x_forty 30)
    as [Hcount Hruns].
  - reflexivity.
  - vm_compute. discriminate.
  - destruct Hruns as [df Hrun].
    + apply fits_okb_sound. vm_compute. reflexivity.
    + exists df. split; [exact Hrun |].
      destruct (Hcount df Hrun) as (_ & _ & Hten).
      apply Hten; reflexivity.
Defined.

(** C4. When [window >= len(y)] the call returns, whatever the solver and
    whatever [x]: the loop makes no pass and the frame has the two labelled
    columns and no row. *)
Theorem RollingOLS_short_series
  (fit : Pandas.Series -> Pandas.DataFrame -> Result (list cell))
  (y x : Pandas.Series) (window : Z) :
  (Py.len (Pandas.items y) <= window)%Z ->
  RollingOLS fit y x window =
    Ok (Pandas.mkFrame [] [("x"%string, []); ("intercept"%string, [])]).
Proof.
  intros Hge. unfold RollingOLS.
  rewrite range_nonpos by lia. simpl.
  rewrite result_index by (pose proof (len_nonneg (Pandas.items y)); lia).
  rewrite skipn_all2; [reflexivity |].
  unfold Pandas.s_index, Py.len in *. rewrite length_map. lia.
Qed.

Lemma RollingOLS_short_series_witness :
  RollingOLS Statsmodels.OLS_fit_params y_demo x_demo 4 =
    Ok (Pandas.mkFrame [] [("x"%string, []); ("intercept"%string, [])]).
Proof.
  apply (@RollingOLS_short_series Statsmodels.OLS_fit_params y_demo x_demo 4).
  vm_compute. discriminate.
Defined.

(** C2. For a call with a positive [window] that is at most [len(y)]:
    whenever the call
    returns, output row [i] carries [y]'s timestamp at position
    [window + i], and with distinct timestamps that is not the timestamp of
    the window's last observation, position [i + window - 1]; and the call
    does return when every pass of the solver succeeds. *)
Theorem RollingOLS_row_timestamp
  (fit : Pandas.Series -> Pandas.DataFrame -> Result (list cell))
  (y x : Pandas.Series) (window : Z) :
  (0 < window)%Z ->
  (window <= Py.len (Pandas.items y))%Z ->
  (forall df,
     RollingOLS fit y x window = Ok df ->
     forall i : nat, (Z.of_nat i < Py.len (Pandas.items y) - window)%Z ->
       (exists t, nth_error (Pandas.index df) i = Some t /\
                  nth_error (Pandas.s_index y) (Z.to_nat (window + Z.of_nat i)) = Some t) /\
       (NoDup (Pandas.s_index y) ->
        nth_error (Pandas.index df) i
          <> nth_error (Pandas.s_index y) (Z.to_nat (Z.of_nat i + window - 1)))) /\
  (fits_ok fit y x window -> exists df, RollingOLS fit y x window = Ok df).
Proof.
  intros Hpos Hle. split.
  - intros df Hrun i Hi.
    destruct (@RollingOLS_returned_shape fit y x window df) as (Hidx & _);
      [lia | assumption |].
    assert (Hpos_i : Z.to_nat (window + Z.of_nat i) = Z.to_nat window + i) by lia.
    assert (Hin : Z.to_nat window + i < length (Pandas.s_index y)).
    { unfold Pandas.s_index, Py.len in *. rewrite length_map. lia. }
    assert (Heq : nth_error (Pandas.index df) i
                  = nth_error (Pandas.s_index y) (Z.to_nat window + i)).
    { rewrite Hidx. apply nth_error_skipn. }
    split.
    + destruct (nth_error (Pandas.s_index y) (Z.to_nat window + i)) as [t |] eqn:Ht.
      * exists t. rewrite Hpos_i. auto.
      * apply nth_error_None in Ht. lia.
    + intros Hnodup Hsame. rewrite Heq in Hsame.
      rewrite NoDup_nth_error in Hnodup.
      apply Hnodup in Hsame; [lia | assumption].
  - intros Hfits.
    destruct (@RollingOLS_rows fit y x window) as (df & Hrun & _);
      [lia | assumption |].
    now exists df.
Qed.

Lemma RollingOLS_row_timestamp_witness :
  exists df,
    RollingOLS Statsmodels.OLS_fit_params y_demo x_demo 2 = Ok df /\
    nth_error (Pandas.index df) 0 = Some 12%Z /\
    nth_error (Pandas.s_index y_demo) 2 = Some 12%Z /\
    nth_error (Pandas.s_index y_demo) 1 = Some 11%Z.
Proof.
  destruct (@RollingOLS_row_timestamp Statsmodels.OLS_fit_params y_demo x_demo 2)
    as [Hstamp Hruns].
  - reflexivity.
  - vm_compute. discriminate.
  - destruct Hruns as [df Hrun].
    + apply fits_okb_sound. vm_compute. reflexivity.
    + exists df. split; [exact Hrun |].
      destruct (Hstamp df Hrun 0) as [(t & Hrow & Hy) _]; [reflexivity |].
      change (Z.to_nat (2 + Z.of_nat 0)) with 2 in Hy.
      assert (Ht : t = 12%Z).
      { change (nth_error (Pandas.s_index y_demo) 2) with (Some 12%Z) in Hy.
        congruence. }
      subst t. repeat split; assumption || reflexivity.
Defined.

(** ** Claims about the recorded coefficients *)

(** Reading a field of a row of the result frame. *)
Lemma two_columns_fields (idx : list Timestamp) (df : Pandas.DataFrame) (i : nat)
  (t : Timestamp) (c0 c1 : cell) :
  two_columns idx df -> i < length idx ->
  Pandas.row df i = Some (t, [c0; c1]) ->
  Pandas.at_ df i "x" = Some c0 /\ Pandas.at_ df i "intercept" = Some c1.
Proof.
  intros (Hidx & cx & ci & Hcols & Hx & Hi) Hlt Hrow.
  unfold Pandas.row in Hrow. rewrite Hcols in Hrow.
  destruct (nth_error (Pandas.index df) i); [| discriminate].
  simpl in Hrow. injection Hrow as _ H0 H1.
  unfold Pandas.at_. rewrite Hcols. simpl.
  split.
  - rewrite <- H0. apply nth_error_nth'. lia.
  - rewrite <- H1. apply nth_error_nth'. lia.
Qed.

(** The design the solver receives has the column of ones first: unless
    the sub-window of [x] is a non-zero constant, its columns are
    [const] and then the series. *)
Lemma x_window_columns (x : Pandas.Series) (window i : Z) :
  Statsmodels.safe_is_const
    (Pandas.s_values (Pandas.series_slice x (Some i) (Some (i + window)%Z))) = false ->
  Pandas.columns (x_window x window i) = ["const"%string; Pandas.name x].
Proof.
  intros Hnc. unfold x_window, Statsmodels.add_constant. rewrite Hnc. reflexivity.
Qed.

(** Row [i] takes the solver's coefficients in the solver's order: the
    field [x] gets the first one, the field [intercept] the second.  With
    the design of [x_window_columns] the first coefficient belongs to the
    column of ones. *)
Lemma RollingOLS_row_fields
  (fit : Pandas.Series -> Pandas.DataFrame -> Result (list cell))
  (y x : Pandas.Series) (window : Z) :
  (0 <= window)%Z ->
  fits_ok fit y x window ->
  exists df,
    RollingOLS fit y x window = Ok df /\
    forall (i : nat) (c0 c1 : cell),
      (Z.of_nat i < Py.len (Pandas.items y) - window)%Z ->
      fit (y_window y window (Z.of_nat i)) (x_window x window (Z.of_nat i)) = Ok [c0; c1] ->
      Pandas.at_ df i "x" = Some c0 /\ Pandas.at_ df i "intercept" = Some c1.
Proof.
  intros Hw Hfits.
  destruct (@RollingOLS_rows fit y x window Hw Hfits) as (df & Hrun & Hshape & Hrows).
  exists df. split; [assumption |].
  intros i c0 c1 Hi Hfit.
  assert (Hin : Z.to_nat window + i < length (Pandas.s_index y)).
  { unfold Pandas.s_index, Py.len in *. rewrite length_map. lia. }
  destruct (nth_error (Pandas.s_index y) (Z.to_nat window + i)) as [t |] eqn:Ht;
    [| apply nth_error_None in Ht; lia].
  apply (@two_columns_fields _ df i t c0 c1 Hshape).
  - rewrite length_skipn. lia.
  - now apply Hrows.
Qed.

(** C1, at a failing input.  With [y = 1, 3, 5, 9], [x = 0, 1, 2, 3] and
    [window = 2] the first pass sees the points (0, 1) and (1, 3), which lie
    on the line with slope 2 and intercept 1.  The call records, in row 0,
    the intercept 1 under the label [x] and the slope 2 under the label
    [intercept]. *)
Theorem RollingOLS_fields_swapped :
  Forall (on_line 2 1) (window_points y_demo x_demo 2 0) /\
  exists df,
    RollingOLS Statsmodels.OLS_fit_params y_demo x_demo 2 = Ok df /\
    Pandas.at_ df 0 "x" = Some (Some 1%Q) /\
    Pandas.at_ df 0 "intercept" = Some (Some 2%Q).
Proof.
  split.
  - vm_compute. repeat constructor.
  - eexists. split; [vm_compute; reflexivity |].
    split; reflexivity.
Qed.

(** C5, at a failing input.  With the same series [1, 2, 4, 7, 11, 16, 22]
    on both sides and [window = 5], every observation lies on the line
    with slope 1 and intercept 0, and each of the two rows of the output
    holds 0 under the label [x] and 1 under the label [intercept]. *)
Theorem RollingOLS_identical_series_fields :
  Forall (on_line 1 0) (window_points same_demo same_demo 5 0) /\
  Forall (on_line 1 0) (window_points same_demo same_demo 5 1) /\
  exists df,
    RollingOLS Statsmodels.OLS_fit_params same_demo same_demo 5 = Ok df /\
    length (Pandas.index df) = 2 /\
    forall i, i < 2 ->
      Pandas.at_ df i "x" = Some (Some 0%Q) /\
      Pandas.at_ df i "intercept" = Some (Some 1%Q).
Proof.
  split; [| split].
  - vm_compute. repeat constructor.
  - vm_compute. repeat constructor.
  - eexists. split; [vm_compute; reflexivity |].
    split; [reflexivity |].
    intros [| [| i]] Hi; [split; reflexivity | split; reflexivity | lia].
Qed.

(** ** The price fetcher: the single-symbol path *)

Section FetcherFacts.
Import Pandas.

Variable history : Request -> Result DataFrame.
Variable now : string.

Lemma fetch_one_request (symbol : SymbolArg) (start_date : string) (end_date : option string)
  (frequency : string) (fields : FieldsArg) :
  fetch_one history now symbol start_date end_date frequency fields =
  ([request_for now start_date end_date frequency symbol],
   df <- history (request_for now start_date end_date frequency symbol) ;; process df fields).
Proof. reflexivity. Qed.

Lemma index_eqb_refl (idx : list Timestamp) : index_eqb idx idx = true.
Proof.
  induction idx as [| t idx IH]; simpl; [reflexivity |].
  now rewrite Z.eqb_refl.
Qed.

Lemma index_eqb_eq (a b : list Timestamp) : index_eqb a b = true -> a = b.
Proof.
  revert b; induction a as [| x a IH]; intros [| y b] H; simpl in H;
    try discriminate; [reflexivity |].
  apply andb_true_iff in H as [Hxy Hab].
  apply Z.eqb_eq in Hxy. f_equal; auto.
Qed.

Lemma s_index_combine (label : string) (idx : list Timestamp) (col : list cell) :
  length col = length idx -> s_index (mkSeries label (combine idx col)) = idx.
Proof.
  unfold s_index. simpl. revert col.
  induction idx as [| t idx IH]; intros [| c col] H; simpl in *; try discriminate;
    [reflexivity |].
  f_equal. apply IH. lia.
Qed.

Lemma s_values_combine (label : string) (idx : list Timestamp) (col : list cell) :
  length col = length idx -> s_values (mkSeries label (combine idx col)) = col.
Proof.
  unfold s_values. simpl. revert col.
  induction idx as [| t idx IH]; intros [| c col] H; simpl in *; try discriminate;
    [reflexivity |].
  f_equal. apply IH. lia.
Qed.

(** A column read from a frame and written back to it under a new label
    is stored as it is. *)
Lemma setitem_own_column (df : DataFrame) (key label : string) (col : list cell) :
  length col = length (index df) ->
  setitem_series df key (mkSeries label (combine (index df) col)) =
  Ok (mkFrame (index df) (set_column (cols df) key col)).
Proof.
  intros Hlen. unfold setitem_series.
  assert (Hsame : (match index df, items (mkSeries label (combine (index df) col)) with
                   | [], _ :: _ =>
                       mkFrame (s_index (mkSeries label (combine (index df) col)))
                         (map (fun c => (fst c, repeat None
                            (length (items (mkSeries label (combine (index df) col))))))
                              (cols df))
                   | _, _ => df
                   end) = df).
  { destruct (index df); simpl; [reflexivity |]. destruct col; reflexivity. }
  rewrite Hsame.
  rewrite s_index_combine, s_values_combine by assumption.
  rewrite index_eqb_refl. simpl. reflexivity.
Qed.

(** The columns of a native table, by name. *)
Lemma native_table_cols (t : DataFrame) :
  native_table t ->
  exists o h l c v d sp : list cell,
    cols t = [("Open", o); ("High", h); ("Low", l); ("Close", c); ("Volume", v);
              ("Dividends", d); ("Stock Splits", sp)]%string /\
    length c = length (index t).
Proof.
  intros [Hcols Hwf]. unfold columns, native_columns, well_formed in *.
  destruct (cols t) as [| [n1 o] [| [n2 h] [| [n3 l] [| [n4 c] [| [n5 v]
              [| [n6 d] [| [n7 sp] [| ? ?]]]]]]]]; try discriminate.
  simpl in Hcols. injection Hcols as -> -> -> -> -> -> ->.
  exists o, h, l, c, v, d, sp. split; [reflexivity |].
  inversion Hwf as [| ? ? _ Hwf1]; subst.
  inversion Hwf1 as [| ? ? _ Hwf2]; subst.
  inversion Hwf2 as [| ? ? _ Hwf3]; subst.
  inversion Hwf3 as [| ? ? Hc _]; subst.
  exact Hc.
Qed.

(** What the "process data" step makes of a native table when no field is
    selected. *)
Lemma process_native_all (t : DataFrame) (fields : FieldsArg) :
  native_table t -> fields_given fields = false ->
  process t fields =
  Ok (mkFrame (index t)
        [("open_price", column_of t "Open"); ("high", column_of t "High");
         ("low", column_of t "Low"); ("close_price", column_of t "Close");
         ("volume", column_of t "Volume"); ("price", column_of t "Close")]%string).
Proof.
  intros Hnat Hnone.
  destruct (native_table_cols Hnat) as (o & h & l & c & v & d & sp & Hcols & Hc).
  unfold process, column_of. rewrite Hnone.
  unfold rename_columns, drop_columns, columns, getitem, rename_label.
  rewrite Hcols. simpl.
  pose proof (@setitem_own_column
             (mkFrame (index t)
                [("open_price", o); ("high", h); ("low", l); ("close_price", c);
                 ("volume", v)]%string) "price" "close_price" c Hc) as Hset.
  simpl in Hset. rewrite Hset. reflexivity.
Qed.

End FetcherFacts.

Lemma at_column_of (df : Pandas.DataFrame) (i : nat) (label : string) :
  existsb (Pandas.has_label label) (Pandas.cols df) = true ->
  Pandas.at_ df i label = nth_error (column_of df label) i.
Proof.
  unfold Pandas.at_, column_of, Pandas.has_label. intros Hex.
  destruct (find (fun c => String.eqb (fst c) label) (Pandas.cols df)) eqn:Hfind;
    [reflexivity |].
  apply existsb_exists in Hex as (c & Hin & Hc).
  now rewrite (find_none _ _ Hfind c Hin) in Hc.
Qed.

(** C7. A single-symbol call without [fields], on a provider that answers
    with its native table: one provider call; the result has exactly the
    six normalized columns and the rows of the table; the column [price]
    equals the column [close_price] in every row, both being the
    provider's [Close]. *)
Theorem get_pricing_all_columns
  (history : Request -> Result Pandas.DataFrame) (now : string)
  (s : string) (start_date : string) (end_date : option string) (frequency : string)
  (t : Pandas.DataFrame) :
  history (request_for now start_date end_date frequency (Symbol s)) = Ok t ->
  native_table t ->
  exists df,
    get_pricing history now (Symbol s) start_date end_date frequency NoFields =
      ([request_for now start_date end_date frequency (Symbol s)], Ok df) /\
    Pandas.columns df = normalized_columns /\
    Pandas.index df = Pandas.index t /\
    (forall i, Pandas.at_ df i "price" = Pandas.at_ df i "close_price") /\
    column_of df "price" = column_of t "Close".
Proof.
  intros Hhist Hnat. unfold get_pricing.
  rewrite fetch_one_request, Hhist. simpl.
  rewrite process_native_all by (assumption || reflexivity).
  eexists. split; [reflexivity |].
  repeat split.
Qed.

Lemma get_pricing_all_columns_witness :
  exists df,
    get_pricing demo_history "2024-01-01" (Symbol "A") "1900-01-01" None "daily" NoFields =
      ([request_for "2024-01-01" "1900-01-01" None "daily" (Symbol "A")], Ok df) /\
    Pandas.columns df = normalized_columns /\
    Pandas.index df = Pandas.index table_A /\
    (forall i, Pandas.at_ df i "price" = Pandas.at_ df i "close_price") /\
    column_of df "price" = column_of table_A "Close".
Proof.
  apply (@get_pricing_all_columns demo_history "2024-01-01" "A" "1900-01-01" None "daily"
           table_A).
  - reflexivity.
  - split; [reflexivity |]. unfold well_formed. vm_compute. repeat constructor.
Defined.

(** C9. A list of symbols without [fields] ([None], the empty string or
    the empty list) does not enter the multi-symbol branch: the call is the
    single-symbol path run on the list itself, so the provider is called
    once, with the whole list; on a native table the result keeps every row
    of the table, rows with a missing value included, and has the six
    normalized columns rather than one column per symbol. *)
Theorem get_pricing_symbols_without_fields
  (history : Request -> Result Pandas.DataFrame) (now : string)
  (l : list string) (start_date : string) (end_date : option string) (frequency : string)
  (fields : FieldsArg) :
  fields_given fields = false ->
  get_pricing history now (Symbols l) start_date end_date frequency fields =
    fetch_one history now (Symbols l) start_date end_date frequency fields /\
  get_pricing history now (Symbols l) start_date end_date frequency fields =
    ([request_for now start_date end_date frequency (Symbols l)],
     df <- history (request_for now start_date end_date frequency (Symbols l)) ;;
     process df fields) /\
  forall t,
    history (request_for now start_date end_date frequency (Symbols l)) = Ok t ->
    native_table t ->
    exists df,
      snd (get_pricing history now (Symbols l) start_date end_date frequency fields) = Ok df /\
      Pandas.index df = Pandas.index t /\
      Pandas.columns df = normalized_columns.
Proof.
  intros Hnone. unfold get_pricing. rewrite Hnone.
  split; [reflexivity |]. split; [apply fetch_one_request |].
  intros t Hhist Hnat. rewrite fetch_one_request, Hhist. simpl.
  rewrite process_native_all by assumption.
  eexists. repeat split.
Qed.

Lemma get_pricing_symbols_without_fields_witness :
  get_pricing demo_history "2024-01-01" (Symbols ["A"; "B"]%string) "1900-01-01" None "daily"
      NoFields =
    fetch_one demo_history "2024-01-01" (Symbols ["A"; "B"]%string) "1900-01-01" None "daily"
      NoFields /\
  get_pricing demo_history "2024-01-01" (Symbols ["A"; "B"]%string) "1900-01-01" None "daily"
      NoFields =
    ([request_for "2024-01-01" "1900-01-01" None "daily" (Symbols ["A"; "B"]%string)],
     df <- demo_history
             (request_for "2024-01-01" "1900-01-01" None "daily" (Symbols ["A"; "B"]%string)) ;;
     process df NoFields) /\
  forall t,
    demo_history (request_for "2024-01-01" "1900-01-01" None "daily" (Symbols ["A"; "B"]%string))
      = Ok t ->
    native_table t ->
    exists df,
      snd (get_pricing demo_history "2024-01-01" (Symbols ["A"; "B"]%string) "1900-01-01" None
             "daily" NoFields) = Ok df /\
      Pandas.index df = Pandas.index t /\
      Pandas.columns df = normalized_columns.
Proof.
  apply (@get_pricing_symbols_without_fields demo_history "2024-01-01" ["A"; "B"]%string
           "1900-01-01" None "daily" NoFields).
  reflexivity.
Defined.

(** The names of a list are glued before the split at commas: two field
    names given as a list are looked up as one label, which no column of
    the processed table carries. *)
Lemma process_two_names (t : Pandas.DataFrame) (a b : string) :
  native_table t ->
  In a normalized_columns -> In b normalized_columns ->
  process t (FieldList [a; b]) = Raise (KeyError (String.append a b)).
Proof.
  intros Hnat Ha Hb.
  destruct (native_table_cols Hnat) as (o & h & l & c & v & d & sp & Hcols & Hc).
  unfold process.
  unfold Pandas.rename_columns, Pandas.drop_columns, Pandas.columns, Pandas.getitem,
    Pandas.rename_label.
  rewrite Hcols. simpl.
  pose proof (@setitem_own_column
             (Pandas.mkFrame (Pandas.index t)
                [("open_price", o); ("high", h); ("low", l); ("close_price", c);
                 ("volume", v)]%string) "price" "close_price" c Hc) as Hset.
  simpl in Hset. rewrite Hset. clear Hset.
  unfold normalized_columns in Ha, Hb. simpl in Ha, Hb.
  repeat (destruct Ha as [<- | Ha]; [| try contradiction]);
    repeat (destruct Hb as [<- | Hb]; [| try contradiction]);
    reflexivity.
Qed.

(** C6, at a failing input.  On the native table of ticker [A], the call
    with [fields=['high', 'low']] raises [KeyError('highlow')], while the
    same two names given as the string ['high,low'] select the two
    columns. *)
Theorem get_pricing_field_list_fails :
  get_pricing demo_history "2024-01-01" (Symbol "A") "1900-01-01" None "daily"
      (FieldList ["high"; "low"]%string) =
    ([request_for "2024-01-01" "1900-01-01" None "daily" (Symbol "A")],
     Raise (KeyError "highlow")) /\
  exists df,
    snd (get_pricing demo_history "2024-01-01" (Symbol "A") "1900-01-01" None "daily"
           (FieldStr "high,low")) = Ok df /\
    Pandas.columns df = ["high"; "low"]%string.
Proof.
  split; [vm_compute; reflexivity |].
  eexists. split; [vm_compute; reflexivity | reflexivity].
Qed.

(** ** The price fetcher: the multi-symbol branch *)

Lemma process_native_field (t : Pandas.DataFrame) (fields : FieldsArg) (f : string) :
  native_table t -> In f normalized_columns -> single_field fields f ->
  process t fields =
  Ok (Pandas.mkFrame (Pandas.index t) [(f, column_of t (native_label f))]).
Proof.
  intros Hnat Hf Hsingle.
  destruct (native_table_cols Hnat) as (o & h & l & c & v & d & sp & Hcols & Hc).
  unfold process, column_of.
  unfold Pandas.rename_columns, Pandas.drop_columns, Pandas.columns, Pandas.getitem,
    Pandas.rename_label.
  rewrite Hcols. simpl.
  pose proof (@setitem_own_column
             (Pandas.mkFrame (Pandas.index t)
                [("open_price", o); ("high", h); ("low", l); ("close_price", c);
                 ("volume", v)]%string) "price" "close_price" c Hc) as Hset.
  simpl in Hset. rewrite Hset. clear Hset.
  unfold normalized_columns in Hf. simpl in Hf.
  destruct Hsingle as [-> | ->];
    repeat (destruct Hf as [<- | Hf]; [reflexivity |]); contradiction.
Qed.

(** One pass of the multi-symbol loop on a native table: the field's
    series is stored under the symbol. *)
Lemma select_and_store (t prices_df : Pandas.DataFrame) (fields : FieldsArg) (f item : string) :
  native_table t -> In f normalized_columns -> single_field fields f ->
  (df <- process t fields ;;
   sel <- getitem_fields df fields ;;
   Pandas.setitem prices_df item sel) =
  Pandas.setitem_series prices_df item (field_series t f).
Proof.
  intros Hnat Hf Hsingle.
  rewrite (process_native_field Hnat Hf Hsingle). simpl.
  destruct Hsingle as [-> | ->]; simpl.
  - unfold Pandas.getitem. simpl. unfold Pandas.has_label. simpl.
    rewrite String.eqb_refl. reflexivity.
  - unfold Pandas.getitem_list. simpl. unfold Pandas.has_label. simpl.
    rewrite String.eqb_refl. reflexivity.
Qed.

Lemma has_duplicates_NoDup (l : list Timestamp) :
  NoDup l -> Pandas.has_duplicates l = false.
Proof.
  induction 1 as [| t l Hnotin _ IH]; simpl; [reflexivity |].
  rewrite IH, orb_false_r.
  destruct (existsb (Z.eqb t) l) eqn:Hex; [| reflexivity].
  apply existsb_exists in Hex as (t' & Hin & Heq).
  apply Z.eqb_eq in Heq. subst t'. contradiction.
Qed.

Lemma lookup_items_self (label : string) (its : list (Timestamp * cell)) :
  NoDup (map fst its) ->
  map (Pandas.lookup (Pandas.mkSeries label its)) (map fst its) = map snd its.
Proof.
  unfold Pandas.lookup. simpl.
  induction its as [| [t v] its IH]; intros Hnodup; simpl; [reflexivity |].
  inversion Hnodup as [| ? ? Hnotin Hrest]; subst.
  rewrite Z.eqb_refl. simpl. f_equal.
  rewrite <- IH by assumption.
  apply map_ext_in. intros t' Hin.
  destruct (Z.eqb_spec t t') as [-> | _]; [contradiction | reflexivity].
Qed.

Lemma lookup_self (s : Pandas.Series) :
  NoDup (Pandas.s_index s) ->
  map (Pandas.lookup s) (Pandas.s_index s) = Pandas.s_values s.
Proof.
  destruct s as [label its]. apply lookup_items_self.
Qed.

Lemma set_column_fresh (cs : list (string * list cell)) (key : string) (vals : list cell) :
  ~ In key (map fst cs) ->
  Pandas.set_column cs key vals = cs ++ [(key, vals)].
Proof.
  intros Hfresh. unfold Pandas.set_column.
  destruct (existsb (Pandas.has_label key) cs) eqn:Hex; [| reflexivity].
  apply existsb_exists in Hex as (c & Hin & Hc).
  unfold Pandas.has_label in Hc. apply String.eqb_eq in Hc.
  exfalso. apply Hfresh. rewrite <- Hc. now apply in_map.
Qed.

Section AssemblyFacts.
Import Pandas.

Variable series_of : string -> Series.

Lemma quote_empty (s : string) (ts : Timestamp) :
  items (series_of s) = [] -> quote series_of s ts = None.
Proof. unfold quote, lookup. now intros ->. Qed.

Lemma first_index_nil (l : list string) :
  first_index series_of l = [] -> forall s, In s l -> items (series_of s) = [].
Proof.
  induction l as [| s0 l IH]; simpl; intros Hnil s Hin; [contradiction |].
  destruct (items (series_of s0)) as [| it its] eqn:Hits.
  - destruct Hin as [<- | Hin]; [assumption | now apply IH].
  - unfold s_index in Hnil. rewrite Hits in Hnil. discriminate.
Qed.

Lemma first_index_app (l : list string) (s : string) :
  first_index series_of (l ++ [s]) =
  match first_index series_of l with
  | [] => match items (series_of s) with [] => [] | _ :: _ => s_index (series_of s) end
  | t :: idx => t :: idx
  end.
Proof.
  induction l as [| s0 l IH]; simpl.
  - destruct (items (series_of s)); reflexivity.
  - destruct (items (series_of s0)) as [| it its] eqn:Hits; [exact IH |].
    unfold s_index. rewrite Hits. reflexivity.
Qed.

(** Storing the next symbol's series in the frame under assembly. *)
Lemma setitem_assembled (done : list string) (item : string) :
  ~ In item done ->
  NoDup (s_index (series_of item)) ->
  setitem_series (assembled series_of done) item (series_of item) =
  Ok (assembled series_of (done ++ [item])).
Proof.
  intros Hfresh Hnodup.
  assert (Hcols : forall idx : list Timestamp,
            ~ In item (map fst (map (fun s => (s, map (quote series_of s) idx)) done))).
  { intros idx. rewrite map_map. simpl. now rewrite map_id. }
  unfold setitem_series, assembled. simpl.
  rewrite first_index_app.
  destruct (first_index series_of done) as [| t idx] eqn:Hfirst.
  - destruct (items (series_of item)) as [| it its] eqn:Hits.
    + simpl. rewrite map_app. simpl.
      unfold s_index, s_values. rewrite Hits. simpl.
      rewrite set_column_fresh by apply (Hcols []). reflexivity.
    + simpl. rewrite index_eqb_refl. simpl.
      rewrite map_map. simpl.
      rewrite set_column_fresh.
      2:{ rewrite map_map. simpl. now rewrite map_id. }
      rewrite map_app. simpl. unfold quote at 2. rewrite lookup_self by assumption.
      do 3 f_equal.
      apply map_ext_in. intros s Hin. f_equal.
      rewrite (map_ext _ (fun _ => None)).
      2:{ intros ts. apply quote_empty. now apply (first_index_nil done Hfirst). }
      unfold s_index. rewrite Hits.
      change (None :: repeat None (length its)) with (repeat (@None Q) (length (it :: its))).
      generalize (it :: its). intros l0. induction l0; simpl; congruence.
  - simpl.
    assert (Hvals :
      (if index_eqb (s_index (series_of item)) (t :: idx) || false
       then Ok (s_values (series_of item))
       else reindex (series_of item) (t :: idx)) =
      Ok (map (quote series_of item) (t :: idx))).
    { destruct (index_eqb (s_index (series_of item)) (t :: idx)) eqn:Heq; simpl.
      - apply index_eqb_eq in Heq.
        change (quote series_of item t :: map (quote series_of item) idx)
          with (map (quote series_of item) (t :: idx)).
        rewrite <- Heq. unfold quote. now rewrite lookup_self.
      - unfold reindex. now rewrite has_duplicates_NoDup. }
    destruct (items (series_of item)); simpl in *; rewrite Hvals; simpl;
      rewrite set_column_fresh by apply (Hcols (t :: idx));
      rewrite map_app; reflexivity.
Qed.

(** [dropna] keeps the timestamps at which every symbol has a value. *)
Lemma keep_mask_quotes (l : list string) (idx : list Timestamp) :
  keep_mask (length idx) (map (fun s => map (quote series_of s) idx) l) =
  map (all_present series_of l) idx.
Proof.
  induction idx as [| t idx IH]; simpl; [reflexivity |].
  f_equal.
  - unfold all_present. clear IH.
    induction l as [| s l IHl]; simpl; [reflexivity |].
    now rewrite IHl.
  - rewrite map_map. simpl. exact IH.
Qed.

Lemma select_map_filter {A : Type} (P : Timestamp -> bool) (g : Timestamp -> A)
  (idx : list Timestamp) :
  select (map P idx) (map g idx) = map g (filter P idx).
Proof.
  induction idx as [| t idx IH]; simpl; [reflexivity |].
  destruct (P t); simpl; now rewrite IH.
Qed.

Lemma dropna_assembled (l : list string) :
  dropna (assembled series_of l) =
  mkFrame (filter (all_present series_of l) (first_index series_of l))
          (map (fun s => (s, map (quote series_of s)
                               (filter (all_present series_of l) (first_index series_of l))))
               l).
Proof.
  unfold dropna, assembled. simpl.
  rewrite !map_map. simpl.
  rewrite keep_mask_quotes.
  f_equal.
  - rewrite <- (map_id (first_index series_of l)) at 2.
    rewrite select_map_filter. apply map_id.
  - apply map_ext. intros s. f_equal. apply select_map_filter.
Qed.

(** A timestamp at which the first symbol has a value is one of its own. *)
Lemma lookup_present_in_index (s : Series) (ts : Timestamp) :
  is_present (lookup s ts) = true -> In ts (s_index s).
Proof.
  unfold lookup, s_index.
  destruct (find (fun it => Z.eqb (fst it) ts) (items s)) as [it |] eqn:Hfind;
    [| discriminate].
  intros _. apply find_some in Hfind as [Hin Heq].
  apply Z.eqb_eq in Heq. subst ts. now apply in_map.
Qed.

(** The rows that remain are taken from the first symbol's timestamps, in
    their order. *)
Lemma filter_first_index (l : list string) :
  filter (all_present series_of l) (first_index series_of l) =
  filter (all_present series_of l) (leading_index series_of l).
Proof.
  destruct l as [| s l]; simpl; [reflexivity |].
  destruct (items (series_of s)) as [| it its] eqn:Hits; [| reflexivity].
  unfold s_index. rewrite Hits. simpl.
  induction (first_index series_of l) as [| t idx IH]; simpl; [reflexivity |].
  rewrite (quote_empty s t Hits). simpl. exact IH.
Qed.

End AssemblyFacts.

Lemma native_column_length (t : Pandas.DataFrame) (f : string) :
  native_table t -> In f normalized_columns ->
  length (column_of t (native_label f)) = length (Pandas.index t).
Proof.
  intros Hnat Hf.
  destruct (native_table_cols Hnat) as (o & h & l & c & v & d & sp & Hcols & Hc).
  destruct Hnat as [_ Hwf]. unfold well_formed in Hwf. rewrite Hcols in Hwf.
  repeat match goal with
         | H : Forall _ (_ :: _) |- _ => inversion H; clear H; subst
         end.
  unfold column_of. rewrite Hcols.
  unfold normalized_columns in Hf. simpl in Hf.
  repeat (destruct Hf as [<- | Hf]; [simpl in *; assumption |]); contradiction.
Qed.

Lemma field_series_index (t : Pandas.DataFrame) (f : string) :
  native_table t -> In f normalized_columns ->
  Pandas.s_index (field_series t f) = Pandas.index t.
Proof.
  intros Hnat Hf. unfold field_series.
  apply s_index_combine. now apply native_column_length.
Qed.

Lemma single_field_given (fields : FieldsArg) (f : string) :
  single_field fields f -> In f normalized_columns -> fields_given fields = true.
Proof.
  intros [-> | ->] Hf; [| reflexivity].
  unfold normalized_columns in Hf. simpl in Hf.
  repeat (destruct Hf as [<- | Hf]; [reflexivity |]); contradiction.
Qed.

Section MultiSymbolFacts.
Import Pandas.

Variable history : Request -> Result DataFrame.
Variable now : string.
Variable start_date : string.
Variable end_date : option string.
Variable frequency : string.
Variable fields : FieldsArg.
Variable f : string.
Variable table : string -> DataFrame.

Hypothesis field_known : In f normalized_columns.
Hypothesis field_single : single_field fields f.

(** The loop of the multi-symbol branch, started on the frame assembled
    from the symbols [done], calls the provider once per remaining symbol,
    in order, and ends with the frame assembled from all of them. *)
Lemma fetch_each_assembled (rest done : list string) :
  NoDup (done ++ rest) ->
  (forall s, In s rest ->
     history (request_for now start_date end_date frequency (Symbol s)) = Ok (table s) /\
     native_table (table s) /\ NoDup (index (table s))) ->
  fetch_each history now rest start_date end_date frequency fields
    (assembled (fun s => field_series (table s) f) done) =
  (map (fun s => request_for now start_date end_date frequency (Symbol s)) rest,
   Ok (assembled (fun s => field_series (table s) f) (done ++ rest))).
Proof.
  revert done. induction rest as [| item rest IH]; intros done Hnodup Hprov.
  - simpl. now rewrite app_nil_r.
  - destruct (Hprov item (or_introl eq_refl)) as (Hhist & Hnat & Hidx).
    cbn [fetch_each map]. rewrite fetch_one_request, Hhist.
    cbn [bind].
    rewrite (@select_and_store (table item) _ fields f item Hnat field_known field_single).
    rewrite (@setitem_assembled (fun s => field_series (table s) f) done item).
    + rewrite (IH (done ++ [item])).
      * now rewrite <- app_assoc.
      * now rewrite <- app_assoc.
      * intros s Hs. apply Hprov. now right.
    + apply NoDup_remove_2 in Hnodup. intros Hin. apply Hnodup.
      apply in_or_app. now left.
    + now rewrite field_series_index.
Qed.

End MultiSymbolFacts.

(** C8. A call with a list of distinct symbols and [fields] naming one
    field (as a string or as a one-element list), on a provider that
    answers each symbol with a native table with distinct timestamps: the
    provider is called once per symbol, in order; the result has one column
    per symbol, in order; its rows are the timestamps of the first symbol at
    which every symbol has a value, so a timestamp is a row exactly when no
    symbol misses it; and each column holds its symbol's values there. *)
Theorem get_pricing_multi_symbol
  (history : Request -> Result Pandas.DataFrame) (now : string)
  (l : list string) (start_date : string) (end_date : option string) (frequency : string)
  (fields : FieldsArg) (f : string) (table : string -> Pandas.DataFrame) :
  single_field fields f ->
  In f normalized_columns ->
  NoDup l ->
  (forall s, In s l ->
     history (request_for now start_date end_date frequency (Symbol s)) = Ok (table s) /\
     native_table (table s) /\ NoDup (Pandas.index (table s))) ->
  exists df,
    get_pricing history now (Symbols l) start_date end_date frequency fields =
      (map (fun s => request_for now start_date end_date frequency (Symbol s)) l, Ok df) /\
    Pandas.columns df = l /\
    Pandas.index df =
      filter (all_present (fun s => field_series (table s) f) l)
             (leading_index (fun s => field_series (table s) f) l) /\
    Pandas.cols df =
      map (fun s => (s, map (quote (fun s => field_series (table s) f) s) (Pandas.index df))) l /\
    (forall ts, In ts (Pandas.index df) <->
       l <> [] /\
       forall s, In s l -> exists v, quote (fun s => field_series (table s) f) s ts = Some v).
Proof.
  intros Hsingle Hf Hnodup Hprov.
  set (series_of := fun s => field_series (table s) f).
  unfold get_pricing. rewrite (single_field_given Hsingle Hf).
  change Pandas.empty_frame with (assembled series_of []).
  unfold series_of.
  rewrite (@fetch_each_assembled history now start_date end_date frequency fields f table
             Hf Hsingle l [] Hnodup Hprov).
  simpl. fold series_of.
  rewrite dropna_assembled, filter_first_index.
  eexists. split; [reflexivity |]. simpl.
  split; [| split; [reflexivity | split; [reflexivity |]]].
  - unfold Pandas.columns. simpl. rewrite map_map. simpl. apply map_id.
  - intros ts. rewrite filter_In. unfold all_present. rewrite forallb_forall.
    split.
    + intros [Hin Hall]. split.
      * destruct l; [contradiction | discriminate].
      * intros s Hs. specialize (Hall s Hs).
        destruct (quote series_of s ts) as [v |]; [now exists v | discriminate].
    + intros [Hne Hall]. split.
      * destruct l as [| s0 l0]; [contradiction |]. simpl.
        apply lookup_present_in_index.
        destruct (Hall s0 (or_introl eq_refl)) as [v Hv].
        unfold quote in Hv. fold (series_of s0). now rewrite Hv.
      * intros s Hs. destruct (Hall s Hs) as [v Hv]. now rewrite Hv.
Qed.

Lemma get_pricing_multi_symbol_witness :
  exists df,
    get_pricing demo_history "2024-01-01" (Symbols ["A"; "B"]%string) "1900-01-01" None "daily"
        (FieldStr "price") =
      (map (fun s => request_for "2024-01-01" "1900-01-01" None "daily" (Symbol s))
           ["A"; "B"]%string,
       Ok df) /\
    Pandas.columns df = ["A"; "B"]%string /\
    Pandas.index df =
      filter (all_present (fun s => field_series (demo_table s) "price") ["A"; "B"]%string)
             (leading_index (fun s => field_series (demo_table s) "price") ["A"; "B"]%string) /\
    Pandas.cols df =
      map (fun s => (s, map (quote (fun s => field_series (demo_table s) "price") s)
                           (Pandas.index df)))
          ["A"; "B"]%string /\
    (forall ts, In ts (Pandas.index df) <->
       ["A"; "B"]%string <> [] /\
       forall s, In s ["A"; "B"]%string ->
         exists v, quote (fun s => field_series (demo_table s) "price") s ts = Some v).
Proof.
  apply (@get_pricing_multi_symbol demo_history "2024-01-01" ["A"; "B"]%string "1900-01-01"
           None "daily" (FieldStr "price") "price" demo_table).
  - left. reflexivity.
  - vm_compute. tauto.
  - repeat constructor; simpl; intuition discriminate.
  - intros s [<- | [<- | []]].
    + split; [reflexivity |]. split.
      * split; [reflexivity |]. unfold well_formed. vm_compute. repeat constructor.
      * vm_compute. repeat constructor; simpl; intuition discriminate.
    + split; [reflexivity |]. split.
      * split; [reflexivity |]. unfold well_formed. vm_compute. repeat constructor.
      * vm_compute. repeat constructor; simpl; intuition discriminate.
Defined.

(** ** The rolling regressor leaves its arguments alone *)

Lemma nth_error_list_set_eq {A : Type} (l : list A) (i : nat) (v : A) :
  i < length l -> nth_error (Pandas.list_set l i v) i = Some v.
Proof.
  revert i; induction l as [| a l IH]; intros [| i] Hi; simpl in *; try lia; auto.
  apply IH. lia.
Qed.

Lemma nth_error_list_set_ne {A : Type} (l : list A) (i j : nat) (v : A) :
  i <> j -> nth_error (Pandas.list_set l i v) j = nth_error l j.
Proof.
  revert i j; induction l as [| a l IH]; intros [| i] [| j] Hne; simpl; auto; try lia.
Qed.

Lemma nth_error_snoc_new {A : Type} (l : list A) (o : A) :
  nth_error (l ++ [o]) (length l) = Some o.
Proof. rewrite nth_error_app2 by lia. now rewrite Nat.sub_diag. Qed.

Lemma nth_error_snoc_old {A : Type} (l : list A) (o : A) (r : nat) (v : A) :
  nth_error l r = Some v -> nth_error (l ++ [o]) r = Some v.
Proof.
  intros Hr. rewrite nth_error_app1; [assumption |].
  apply nth_error_Some. congruence.
Qed.

Section MemFacts.
Import Pandas Mem.

Lemma unchanged_refl (h : list Obj) : unchanged h h.
Proof. intros l _. reflexivity. Qed.

Lemma unchanged_length (h h' : list Obj) : unchanged h h' -> length h <= length h'.
Proof.
  intros Hun. destruct h as [| o h]; simpl; [lia |].
  specialize (Hun (length h)). simpl in Hun.
  assert (Hsome : nth_error h' (length h) <> None).
  { rewrite Hun by lia. apply nth_error_Some. simpl. lia. }
  apply nth_error_Some in Hsome. lia.
Qed.

Lemma unchanged_trans (h1 h2 h3 : list Obj) :
  unchanged h1 h2 -> unchanged h2 h3 -> unchanged h1 h3.
Proof.
  intros H12 H23 l Hl. pose proof (unchanged_length H12).
  rewrite H23 by lia. now apply H12.
Qed.

Lemma unchanged_snoc (h h' : list Obj) (o : Obj) :
  unchanged h h' -> unchanged h (h' ++ [o]).
Proof.
  intros Hun l Hl. pose proof (unchanged_length Hun).
  rewrite nth_error_app1 by lia. now apply Hun.
Qed.

Lemma unchanged_lookup (h h' : list Obj) (r : nat) (o : Obj) :
  unchanged h h' -> nth_error h r = Some o -> nth_error h' r = Some o.
Proof.
  intros Hun Hr. rewrite Hun; [assumption |].
  apply nth_error_Some. congruence.
Qed.

Lemma bind_run {A B : Type} (m : M A) (k : A -> M B) (h : list Obj) :
  bindM m k h =
  match fst (m h) with
  | Ok a => k a (snd (m h))
  | Raise e => (Raise e, snd (m h))
  end.
Proof. unfold bindM. now destruct (m h) as [[a | e] h']. Qed.

Lemma bind_slice_m {B : Type} (h : list Obj) (r : nat) (s : Series) (lo hi : option Z)
  (k : nat -> M B) :
  nth_error h r = Some (OSeries s) ->
  bindM (slice_m r lo hi) k h = k (length h) (h ++ [OSeries (series_slice s lo hi)]).
Proof. intros Hr. unfold slice_m, read_series, alloc, bindM. now rewrite Hr. Qed.

Lemma bind_add_constant_m {B : Type} (h : list Obj) (r : nat) (s : Series) (k : nat -> M B) :
  nth_error h r = Some (OSeries s) ->
  bindM (add_constant_m r) k h =
  k (length h) (h ++ [OFrame (Statsmodels.add_constant s)]).
Proof. intros Hr. unfold add_constant_m, read_series, alloc, bindM. now rewrite Hr. Qed.

Lemma bind_index_m {B : Type} (h : list Obj) (r : nat) (s : Series)
  (k : list Timestamp -> M B) :
  nth_error h r = Some (OSeries s) -> bindM (index_m r) k h = k (s_index s) h.
Proof. intros Hr. unfold index_m, read_series, ret, bindM. now rewrite Hr. Qed.

Lemma bind_len_m {B : Type} (h : list Obj) (r : nat) (s : Series) (k : Z -> M B) :
  nth_error h r = Some (OSeries s) -> bindM (len_m r) k h = k (Py.len (items s)) h.
Proof. intros Hr. unfold len_m, read_series, ret, bindM. now rewrite Hr. Qed.

Lemma bind_alloc {B : Type} (h : list Obj) (o : Obj) (k : nat -> M B) :
  bindM (alloc o) k h = k (length h) (h ++ [o]).
Proof. reflexivity. Qed.

Lemma iloc_set_row_m_run (h : list Obj) (r : nat) (d : DataFrame) (i : Z) (vals : list cell) :
  nth_error h r = Some (OFrame d) ->
  iloc_set_row_m r i vals h =
  match iloc_set_row d i vals with
  | Ok d' => (Ok tt, list_set h r (OFrame d'))
  | Raise e => (Raise e, h)
  end.
Proof.
  intros Hr. unfold iloc_set_row_m, read_frame, lift, write, bindM.
  rewrite Hr. now destruct (iloc_set_row d i vals).
Qed.

(** The solver that reads its operands is one that only reads. *)
Lemma fit_m_reads_only (fit : Series -> DataFrame -> Result (list cell)) :
  reads_only (fit_m fit) fit.
Proof.
  intros h endog exog ys xd Hy Hx.
  unfold fit_m, read_series, read_frame, lift, bindM. rewrite Hy, Hx.
  destruct (fit ys xd); split; simpl; auto using unchanged_refl.
Qed.

(** The heap is kept when a computation raises: a write made before an
    exception is there after it. *)
Lemma write_before_raise_stays (o o' : Obj) (e : Exn) :
  bindM (write 0 o') (fun _ => lift (@Raise unit e)) [o] = (Raise e, [o']).
Proof. reflexivity. Qed.

Section Run.

Variable solver : nat -> nat -> M (list cell).
Variable fit : Series -> DataFrame -> Result (list cell).
Hypothesis solver_reads_only : reads_only solver fit.

Variables (h : list Obj) (y x : nat) (ys xs : Series) (window : Z).
Hypothesis y_series : nth_error h y = Some (OSeries ys).
Hypothesis x_series : nth_error h x = Some (OSeries xs).

(** One pass over the heap does what the pass over values does, writes
    only the result frame and allocates after the caller's objects, also
    when it raises. *)
Lemma RollingOLS_body_m_sim (result : nat) (r : DataFrame) (h' : list Obj) (i : Z) :
  loop_inv h result r h' ->
  match RollingOLS_body fit ys xs window r i with
  | Ok r' =>
      fst (RollingOLS_body_m solver y x window result i h') = Ok tt /\
      loop_inv h result r' (snd (RollingOLS_body_m solver y x window result i h'))
  | Raise e =>
      fst (RollingOLS_body_m solver y x window result i h') = Raise e /\
      unchanged h (snd (RollingOLS_body_m solver y x window result i h'))
  end.
Proof.
  intros (Hun & Hres & Hfresh).
  unfold RollingOLS_body_m, RollingOLS_body.
  rewrite (@bind_slice_m _ h' x xs)
    by exact (@unchanged_lookup h h' x (OSeries xs) Hun x_series).
  set (x_sub := series_slice xs (Some i) (Some (i + window)%Z)).
  set (h1 := h' ++ [OSeries x_sub]).
  rewrite (@bind_add_constant_m _ h1 (length h') x_sub) by apply nth_error_snoc_new.
  set (h2 := h1 ++ [OFrame (Statsmodels.add_constant x_sub)]).
  assert (Hun2 : unchanged h h2).
  { unfold h2, h1. now do 2 apply unchanged_snoc. }
  rewrite (@bind_slice_m _ h2 y ys)
    by exact (@unchanged_lookup h h2 y (OSeries ys) Hun2 y_series).
  set (y_new := series_slice ys (Some i) (Some (i + window)%Z)).
  set (h3 := h2 ++ [OSeries y_new]).
  assert (Hun3 : unchanged h h3) by (unfold h3; now apply unchanged_snoc).
  assert (Hres3 : nth_error h3 result = Some (OFrame r)).
  { unfold h3, h2, h1. now do 3 apply nth_error_snoc_old. }
  pose proof solver_reads_only as Hsolver. unfold reads_only in Hsolver.
  destruct (Hsolver h3 (length h2) (length h1) y_new
              (Statsmodels.add_constant x_sub)) as [Hout Hkeep].
  { apply nth_error_snoc_new. }
  { unfold h3. apply nth_error_snoc_old. apply nth_error_snoc_new. }
  rewrite bind_run, Hout.
  set (h4 := snd (solver (length h2) (length h1) h3)) in *.
  assert (Hun4 : unchanged h h4) by exact (unchanged_trans Hun3 Hkeep).
  destruct (fit y_new (Statsmodels.add_constant x_sub)) as [params | e]; cbn [bind];
    [| split; [reflexivity | exact Hun4]].
  assert (Hres4 : nth_error h4 result = Some (OFrame r))
    by exact (@unchanged_lookup h3 h4 result (OFrame r) Hkeep Hres3).
  rewrite (@iloc_set_row_m_run h4 result r i params Hres4).
  destruct (iloc_set_row r i params) as [r' | e]; [| split; [reflexivity | exact Hun4]].
  split; [reflexivity |]. cbn [snd].
  assert (Hlt : result < length h4) by (apply nth_error_Some; congruence).
  split; [| split].
  - intros l Hl. rewrite nth_error_list_set_ne by lia. now apply Hun4.
  - now apply nth_error_list_set_eq.
  - assumption.
Qed.

Lemma for_each_m_sim (result : nat) (its : list Z) :
  forall (r : DataFrame) (h' : list Obj),
    loop_inv h result r h' ->
    match for_each (RollingOLS_body fit ys xs window) its r with
    | Ok r' =>
        fst (for_each_m (RollingOLS_body_m solver y x window result) its h') = Ok tt /\
        loop_inv h result r'
          (snd (for_each_m (RollingOLS_body_m solver y x window result) its h'))
    | Raise e =>
        fst (for_each_m (RollingOLS_body_m solver y x window result) its h') = Raise e /\
        unchanged h (snd (for_each_m (RollingOLS_body_m solver y x window result) its h'))
    end.
Proof.
  induction its as [| i its IH]; intros r h' Hinv; cbn [for_each for_each_m].
  - split; [reflexivity | assumption].
  - pose proof (@RollingOLS_body_m_sim result r h' i Hinv) as Hstep.
    rewrite bind_run.
    destruct (RollingOLS_body fit ys xs window r i) as [r1 | e]; cbn [bind].
    + destruct Hstep as [Hrun Hinv1]. rewrite Hrun.
      exact (IH r1 _ Hinv1).
    + destruct Hstep as [Hrun Hun]. rewrite Hrun. now split.
Qed.

(** The run over the heap against the function over values. *)
Lemma RollingOLS_m_sim :
  match RollingOLS fit ys xs window with
  | Ok df =>
      fst (RollingOLS_m solver y x window h) = Ok (S (length h)) /\
      loop_inv h (S (length h)) df (snd (RollingOLS_m solver y x window h))
  | Raise e =>
      fst (RollingOLS_m solver y x window h) = Raise e /\
      unchanged h (snd (RollingOLS_m solver y x window h))
  end.
Proof.
  unfold RollingOLS_m, RollingOLS.
  rewrite (@bind_slice_m _ h y ys) by assumption.
  set (h1 := h ++ [OSeries (series_slice ys (Some window) None)]).
  rewrite (@bind_index_m _ h1 (length h) (series_slice ys (Some window) None))
    by apply nth_error_snoc_new.
  rewrite bind_alloc.
  set (frame0 := new_frame ["x"%string; "intercept"%string]
                   (s_index (series_slice ys (Some window) None))).
  set (h2 := h1 ++ [OFrame frame0]).
  assert (Hinv : loop_inv h (length h1) frame0 h2).
  { split; [| split].
    - unfold h2, h1. apply unchanged_snoc, unchanged_snoc, unchanged_refl.
    - apply nth_error_snoc_new.
    - unfold h1. rewrite length_app. lia. }
  rewrite (@bind_len_m _ h2 y ys)
    by exact (@unchanged_lookup h h2 y (OSeries ys) (proj1 Hinv) y_series).
  pose proof (@for_each_m_sim (length h1) (Py.range (Py.len (items ys) - window))
                frame0 h2 Hinv) as Hloop.
  assert (Hres : length h1 = S (length h)).
  { unfold h1. rewrite length_app. simpl. lia. }
  rewrite bind_run.
  destruct (for_each _ _ frame0) as [df | e].
  - destruct Hloop as [Hrun Hinv']. rewrite Hrun. unfold ret. cbn [fst snd].
    rewrite <- Hres. now split.
  - destruct Hloop as [Hrun Hun]. rewrite Hrun. now split.
Qed.

End Run.

End MemFacts.

(** C10. A call on two series objects of a heap, with a solver that only
    reads its operands: the outcome, frame or exception, is exactly what
    the function of the two values and the window gives, so calls with
    equal [y], [x] and [window] have equal outcomes, on any heap and also
    when both arguments are one object; and whether the call returns or
    raises, every object that existed before it, the two arguments
    included, is afterwards as it was; a returned result is a new object. *)
Theorem RollingOLS_pure
  (solver : nat -> nat -> Mem.M (list cell))
  (fit : Pandas.Series -> Pandas.DataFrame -> Result (list cell))
  (h : list Mem.Obj) (y x : nat) (ys xs : Pandas.Series) (window : Z) :
  Mem.reads_only solver fit ->
  nth_error h y = Some (Mem.OSeries ys) ->
  nth_error h x = Some (Mem.OSeries xs) ->
  Mem.returned (Mem.RollingOLS_m solver y x window h) = RollingOLS fit ys xs window /\
  Mem.unchanged h (snd (Mem.RollingOLS_m solver y x window h)) /\
  (forall ref, fst (Mem.RollingOLS_m solver y x window h) = Ok ref -> length h <= ref) /\
  (forall h2 y2 x2,
     nth_error h2 y2 = Some (Mem.OSeries ys) ->
     nth_error h2 x2 = Some (Mem.OSeries xs) ->
     Mem.returned (Mem.RollingOLS_m solver y2 x2 window h2) =
     Mem.returned (Mem.RollingOLS_m solver y x window h)).
Proof.
  intros Hsolver Hy Hx.
  assert (Hret : forall h0 y0 x0,
            nth_error h0 y0 = Some (Mem.OSeries ys) ->
            nth_error h0 x0 = Some (Mem.OSeries xs) ->
            Mem.returned (Mem.RollingOLS_m solver y0 x0 window h0)
            = RollingOLS fit ys xs window).
  { intros h0 y0 x0 Hy0 Hx0.
    pose proof (@RollingOLS_m_sim solver fit Hsolver h0 y0 x0 ys xs window Hy0 Hx0) as Hsim.
    destruct (Mem.RollingOLS_m solver y0 x0 window h0) as [out h'].
    destruct (RollingOLS fit ys xs window) as [df | e]; simpl in Hsim.
    - destruct Hsim as (-> & _ & Hres & _). unfold Mem.returned. now rewrite Hres.
    - destruct Hsim as (-> & _). reflexivity. }
  pose proof (@RollingOLS_m_sim solver fit Hsolver h y x ys xs window Hy Hx) as Hsim.
  split; [now apply Hret |]. split; [| split].
  - destruct (RollingOLS fit ys xs window) as [df | e]; apply Hsim.
  - intros ref Href.
    destruct (RollingOLS fit ys xs window) as [df | e];
      destruct Hsim as [Hrun _]; rewrite Hrun in Href; [| discriminate].
    injection Href as <-. lia.
  - intros h2 y2 x2 Hy2 Hx2. rewrite (Hret h2 y2 x2 Hy2 Hx2). symmetry. now apply Hret.
Qed.

Lemma RollingOLS_pure_witness :
  Mem.returned (Mem.RollingOLS_m (Mem.fit_m Statsmodels.OLS_fit_params) 0 1 2
                  [Mem.OSeries y_demo; Mem.OSeries x_gap]) =
    RollingOLS Statsmodels.OLS_fit_params y_demo x_gap 2 /\
  Mem.unchanged [Mem.OSeries y_demo; Mem.OSeries x_gap]
    (snd (Mem.RollingOLS_m (Mem.fit_m Statsmodels.OLS_fit_params) 0 1 2
            [Mem.OSeries y_demo; Mem.OSeries x_gap])) /\
  (forall ref,
     fst (Mem.RollingOLS_m (Mem.fit_m Statsmodels.OLS_fit_params) 0 1 2
            [Mem.OSeries y_demo; Mem.OSeries x_gap]) = Ok ref ->
     length [Mem.OSeries y_demo; Mem.OSeries x_gap] <= ref) /\
  (forall h2 y2 x2,
     nth_error h2 y2 = Some (Mem.OSeries y_demo) ->
     nth_error h2 x2 = Some (Mem.OSeries x_gap) ->
     Mem.returned (Mem.RollingOLS_m (Mem.fit_m Statsmodels.OLS_fit_params) y2 x2 2 h2) =
     Mem.returned (Mem.RollingOLS_m (Mem.fit_m Statsmodels.OLS_fit_params) 0 1 2
                     [Mem.OSeries y_demo; Mem.OSeries x_gap])).
Proof.
  apply (@RollingOLS_pure (Mem.fit_m Statsmodels.OLS_fit_params) Statsmodels.OLS_fit_params
           [Mem.OSeries y_demo; Mem.OSeries x_gap] 0 1 y_demo x_gap 2).
  - apply fit_m_reads_only.
  - reflexivity.
  - reflexivity.
Defined.

(** ** A negative window

    The claims above take [window] positive, as the contract of the
    function has it.  With a negative [window] no call returns: the
    result frame has at most [len(y)] rows while the loop makes more than
    [len(y)] passes, so a pass writes past the last row (or the solver
    raises before). *)

Lemma for_each_fails {S I : Type} (body : S -> I -> Result S) (P : S -> Prop) (i : I) :
  (forall s j s', P s -> body s j = Ok s' -> P s') ->
  (forall s, P s -> exists e, body s i = Raise e) ->
  forall (its : list I) (s : S),
    In i its -> P s -> exists e, for_each body its s = Raise e.
Proof.
  intros Hkeep Hfail. induction its as [| j its IH]; intros s Hin Hs; [contradiction |].
  simpl. destruct (body s j) as [s1 | e] eqn:Hstep; simpl; [| now exists e].
  destruct Hin as [-> | Hin].
  - destruct (Hfail s Hs) as [e He]. congruence.
  - apply IH; [assumption |]. now apply (Hkeep s j).
Qed.

(** X1. With a negative [window] the call raises, for any solver and any
    two series. *)
Lemma RollingOLS_negative_window
  (fit : Pandas.Series -> Pandas.DataFrame -> Result (list cell))
  (y x : Pandas.Series) (window : Z) :
  (window < 0)%Z -> exists e, RollingOLS fit y x window = Raise e.
Proof.
  intros Hneg. unfold RollingOLS.
  set (idx := Pandas.s_index (Pandas.series_slice y (Some window) None)).
  assert (Hrows : (Py.len idx <= Py.len (Pandas.items y))%Z).
  { unfold idx, Pandas.s_index, Pandas.series_slice, Py.slice, Py.len. simpl.
    rewrite length_map, length_firstn, length_skipn. lia. }
  apply for_each_fails with (P := result_shape idx) (i := Py.len idx).
  - intros r j r' Hr. unfold RollingOLS_body.
    destruct (fit _ _) as [params |]; [| discriminate]. simpl.
    now apply iloc_set_row_shape.
  - intros r (Hidx & _). unfold RollingOLS_body.
    destruct (fit _ _) as [params | e]; [| now exists e]. simpl.
    unfold Pandas.iloc_set_row. rewrite Hidx.
    destruct (Z.ltb_spec (Py.len idx) 0) as [Hlt | _].
    { pose proof (len_nonneg idx). lia. }
    destruct (Z.ltb_spec (Py.len idx) 0) as [Hlt | _].
    { pose proof (len_nonneg idx). lia. }
    destruct (Z.leb_spec (Py.len idx) (Py.len idx)) as [_ | Hlt]; [| lia].
    simpl. eexists. reflexivity.
  - unfold Py.range. apply in_map_iff. exists (Z.to_nat (Py.len idx)).
    pose proof (len_nonneg idx).
    split; [lia |]. apply in_seq. lia.
  - unfold result_shape, Pandas.new_frame, Pandas.columns. simpl.
    repeat split. repeat constructor; simpl; apply repeat_length.
Qed.

(** C8 as stated covers every non-empty [fields].  With two symbols and
    [fields='price,high'] (non-empty, two names) the call builds no table:
    the first symbol is fetched, its two columns are selected, and indexing
    that frame by the whole string raises [KeyError('price,high')]; the
    second symbol is never fetched. *)
Lemma get_pricing_multi_symbol_two_fields :
  fields_given (FieldStr "price,high") = true /\
  get_pricing demo_history "2024-01-01" (Symbols ["A"; "B"]%string) "1900-01-01" None "daily"
      (FieldStr "price,high") =
    ([request_for "2024-01-01" "1900-01-01" None "daily" (Symbol "A")],
     Raise (KeyError "price,high")) /\
  ~ exists df,
      snd (get_pricing demo_history "2024-01-01" (Symbols ["A"; "B"]%string) "1900-01-01" None
             "daily" (FieldStr "price,high")) = Ok df.
Proof.
  split; [reflexivity |]. split; [vm_compute; reflexivity |].
  intros [df Hdf]. vm_compute in Hdf. discriminate.
Qed.

(** ** The exact solver *)

Section SolverFacts.
Import Pandas Statsmodels.
Local Open Scope Q_scope.

Lemma all_values_length (l : list cell) (qs : list Q) :
  all_values l = Some qs -> length qs = length l.
Proof.
  revert qs; induction l as [| [q |] l IH]; intros qs H; simpl in H; try discriminate.
  - now injection H as <-.
  - destruct (all_values l) as [qs' |]; [| discriminate].
    injection H as <-. simpl. f_equal. now apply IH.
Qed.

Lemma all_values_ones (n : nat) : all_values (repeat (Some 1) n) = Some (repeat 1 n).
Proof. induction n as [| n IH]; simpl; [reflexivity | now rewrite IH]. Qed.

Lemma dot_ones_ones (n : nat) :
  dot (repeat 1 n) (repeat 1 n) == inject_Z (Z.of_nat n).
Proof.
  unfold dot. induction n as [| n IH]; [reflexivity |].
  cbn [repeat combine map fold_right fst snd]. rewrite IH.
  rewrite Nat2Z.inj_succ. unfold Z.succ. rewrite inject_Z_plus. ring.
Qed.

Lemma dot_ones (l : list Q) : dot (repeat 1 (length l)) l == sum l.
Proof.
  unfold dot, sum. induction l as [| a l IH]; [reflexivity |].
  cbn [length repeat combine map fold_right fst snd]. rewrite IH. ring.
Qed.

(** The sum of squared deviations from any centre [m]. *)
Lemma sum_sq_dev (l : list Q) (m : Q) :
  sum (map (fun v => (v - m) * (v - m)) l) ==
  dot l l - 2 * m * sum l + inject_Z (Z.of_nat (length l)) * m * m.
Proof.
  unfold dot, sum. induction l as [| a l IH]; [simpl; ring |].
  cbn [length combine map fold_right fst snd]. rewrite IH.
  rewrite Nat2Z.inj_succ. unfold Z.succ. rewrite inject_Z_plus. ring.
Qed.

(** The determinant of the normal equations of the design (ones, l) is
    [n * n] times the variance of [l]. *)
Lemma gram_det_variance (l : list Q) :
  inject_Z (Z.of_nat (length l)) * dot l l - sum l * sum l ==
  inject_Z (Z.of_nat (length l)) * inject_Z (Z.of_nat (length l)) * variance l.
Proof.
  unfold variance. rewrite sum_sq_dev.
  destruct l as [| a l]; [simpl; reflexivity |].
  set (n := inject_Z (Z.of_nat (length (a :: l)))).
  assert (Hn : ~ n == 0).
  { unfold n. change 0 with (inject_Z 0). rewrite inject_Z_injective.
    simpl length. lia. }
  field. exact Hn.
Qed.

(** Regressing a column on itself, next to any other column the design is
    of full rank with: coefficient 0 for the other column, 1 for itself. *)
Lemma lstsq2_same (u v : list Q) :
  ~ dot u u * dot v v - dot u v * dot u v == 0 ->
  lstsq2 u v v = [0; 1].
Proof.
  intros Hdet. unfold lstsq2.
  destruct (Qeq_bool (dot u u * dot v v - dot u v * dot u v) 0) eqn:Hb.
  - apply Qeq_bool_eq in Hb. contradiction.
  - f_equal; [| f_equal].
    + change 0 with (Qred 0). apply Qred_complete. field. exact Hdet.
    + change 1 with (Qred 1). apply Qred_complete. field. exact Hdet.
Qed.

Lemma fold_max_ge (t : list Q) :
  forall h, h <= fold_left Qmax t h /\ Forall (fun v => v <= fold_left Qmax t h) t.
Proof.
  induction t as [| a t IH]; intros h; simpl.
  - split; [apply Qle_refl | constructor].
  - destruct (IH (Qmax h a)) as [Hh Hall]. split; [| constructor].
    + eapply Qle_trans; [apply Q.le_max_l | exact Hh].
    + eapply Qle_trans; [apply Q.le_max_r | exact Hh].
    + exact Hall.
Qed.

Lemma fold_min_le (t : list Q) :
  forall h, fold_left Qmin t h <= h /\ Forall (fun v => fold_left Qmin t h <= v) t.
Proof.
  induction t as [| a t IH]; intros h; simpl.
  - split; [apply Qle_refl | constructor].
  - destruct (IH (Qmin h a)) as [Hh Hall]. split; [| constructor].
    + eapply Qle_trans; [exact Hh | apply Q.le_min_l].
    + eapply Qle_trans; [exact Hh | apply Q.le_min_r].
    + exact Hall.
Qed.

(** A column whose largest and smallest value coincide is constant. *)
Lemma ptp_zero_constant (h : Q) (t : list Q) :
  ptp h t == 0 -> Forall (fun v => v == h) (h :: t).
Proof.
  unfold ptp. intros Hptp.
  destruct (fold_max_ge t h) as [Hmax Hmaxs].
  destruct (fold_min_le t h) as [Hmin Hmins].
  set (hi := fold_left Qmax t h) in *. set (lo := fold_left Qmin t h) in *.
  constructor; [reflexivity |].
  rewrite Forall_forall in *. intros v Hv.
  specialize (Hmaxs v Hv). specialize (Hmins v Hv). simpl in Hmaxs, Hmins.
  lra.
Qed.

Lemma constant_sums (l : list Q) (h : Q) :
  Forall (fun v => v == h) l ->
  sum l == inject_Z (Z.of_nat (length l)) * h /\
  dot l l == inject_Z (Z.of_nat (length l)) * h * h.
Proof.
  unfold sum, dot. induction 1 as [| a l Ha _ [IHs IHd]]; [split; simpl; ring |].
  cbn [length combine map fold_right fst snd].
  rewrite IHs, IHd, Ha.
  rewrite Nat2Z.inj_succ. unfold Z.succ. rewrite inject_Z_plus. split; ring.
Qed.

Lemma variance_constant (l : list Q) (h : Q) :
  Forall (fun v => v == h) l -> variance l == 0.
Proof.
  intros Hconst. destruct l as [| a l]; [reflexivity |].
  pose proof (gram_det_variance (a :: l)) as Hdet.
  destruct (constant_sums Hconst) as [Hs Hd].
  rewrite Hs, Hd in Hdet.
  set (n := inject_Z (Z.of_nat (length (a :: l)))) in *.
  assert (Hn : ~ n == 0).
  { unfold n. change 0 with (inject_Z 0). rewrite inject_Z_injective.
    simpl length. lia. }
  assert (Hzero : n * n * variance (a :: l) == 0) by (rewrite <- Hdet; ring).
  apply Qmult_integral in Hzero as [Hnn | Hv]; [| exact Hv].
  apply Qmult_integral in Hnn as [Hn0 | Hn0]; contradiction.
Qed.

(** A window with non-zero variance is not taken for a constant, so it
    gets its column of ones. *)
Lemma safe_is_const_variance (col : list cell) (qs : list Q) :
  all_values col = Some qs -> ~ variance qs == 0 -> safe_is_const col = false.
Proof.
  intros Hvals Hvar. unfold safe_is_const. rewrite Hvals.
  destruct qs as [| h t]; [reflexivity |].
  destruct (Qeq_bool (ptp h t) 0) eqn:Hptp; [| reflexivity].
  exfalso. apply Hvar.
  apply (@variance_constant (h :: t) h).
  apply ptp_zero_constant. now apply Qeq_bool_eq.
Qed.

(** *** Least squares *)

Lemma sse_expand (rows : list (Q * Q * Q)) (c0 c1 : Q) :
  sse rows c0 c1 ==
  dot (col_y rows) (col_y rows)
  - 2 * c0 * dot (col_u rows) (col_y rows) - 2 * c1 * dot (col_v rows) (col_y rows)
  + c0 * c0 * dot (col_u rows) (col_u rows)
  + 2 * c0 * c1 * dot (col_u rows) (col_v rows)
  + c1 * c1 * dot (col_v rows) (col_v rows).
Proof.
  unfold sse, sum, dot, col_u, col_v, col_y.
  induction rows as [| [[u v] y] rows IH]; [simpl; ring |].
  cbn [map combine fold_right fst snd]. rewrite IH. ring.
Qed.

Lemma sse_nonneg (rows : list (Q * Q * Q)) (c0 c1 : Q) : 0 <= sse rows c0 c1.
Proof.
  unfold sse, sum. induction rows as [| [[u v] y] rows IH]; [simpl; lra |].
  cbn [map fold_right].
  set (t := y - (c0 * u + c1 * v)).
  assert (Hsq : 0 <= t * t) by nra.
  lra.
Qed.

Lemma dot_zeros {A : Type} (rows : list A) (l : list Q) :
  dot l (map (fun _ => 0) rows) == 0.
Proof.
  unfold dot. revert l.
  induction rows as [| r rows IH]; intros [| a l]; simpl; try reflexivity.
  rewrite IH. ring.
Qed.

(** The quadratic form of the Gram matrix is a sum of squares. *)
Lemma gram_nonneg (rows : list (Q * Q * Q)) (e0 e1 : Q) :
  0 <= e0 * e0 * dot (col_u rows) (col_u rows)
       + 2 * e0 * e1 * dot (col_u rows) (col_v rows)
       + e1 * e1 * dot (col_v rows) (col_v rows).
Proof.
  pose proof (sse_nonneg (map (fun r => (fst (fst r), snd (fst r), 0)) rows) e0 e1) as Hsse.
  rewrite sse_expand in Hsse.
  assert (Hu : col_u (map (fun r => (fst (fst r), snd (fst r), 0)) rows) = col_u rows).
  { unfold col_u. rewrite map_map. reflexivity. }
  assert (Hv : col_v (map (fun r => (fst (fst r), snd (fst r), 0)) rows) = col_v rows).
  { unfold col_v. rewrite map_map. reflexivity. }
  assert (Hy : forall l, dot l (col_y (map (fun r => (fst (fst r), snd (fst r), 0)) rows)) == 0).
  { intros l. unfold col_y. rewrite map_map. apply dot_zeros. }
  rewrite Hu, Hv, !Hy in Hsse. lra.
Qed.

(** With a design of full column rank the solver's coefficients minimise
    the sum of squared residuals. *)
Lemma lstsq2_least_squares (rows : list (Q * Q * Q)) (b0 b1 : Q) :
  ~ dot (col_u rows) (col_u rows) * dot (col_v rows) (col_v rows)
    - dot (col_u rows) (col_v rows) * dot (col_u rows) (col_v rows) == 0 ->
  lstsq2 (col_u rows) (col_v rows) (col_y rows) = [b0; b1] ->
  forall c0 c1 : Q, sse rows b0 b1 <= sse rows c0 c1.
Proof.
  intros Hdet Hsol c0 c1. unfold lstsq2 in Hsol.
  set (a := dot (col_u rows) (col_u rows)) in *.
  set (b := dot (col_u rows) (col_v rows)) in *.
  set (d := dot (col_v rows) (col_v rows)) in *.
  set (p := dot (col_u rows) (col_y rows)) in *.
  set (q := dot (col_v rows) (col_y rows)) in *.
  destruct (Qeq_bool (a * d - b * b) 0) eqn:Hb.
  { apply Qeq_bool_eq in Hb. contradiction. }
  assert (E0 : b0 == (d * p - b * q) / (a * d - b * b)).
  { assert (b0 = Qred ((d * p - b * q) / (a * d - b * b))) as -> by congruence.
    apply Qred_correct. }
  assert (E1 : b1 == (a * q - b * p) / (a * d - b * b)).
  { assert (b1 = Qred ((a * q - b * p) / (a * d - b * b))) as -> by congruence.
    apply Qred_correct. }
  clear Hsol.
  assert (N0 : a * b0 + b * b1 == p) by (rewrite E0, E1; field; exact Hdet).
  assert (N1 : b * b0 + d * b1 == q) by (rewrite E0, E1; field; exact Hdet).
  pose proof (gram_nonneg rows (c0 - b0) (c1 - b1)) as Hgram.
  fold a b d in Hgram.
  rewrite !sse_expand. fold a b d p q.
  rewrite <- N0, <- N1.
  set (yy := dot (col_y rows) (col_y rows)).
  assert (Hdiff :
    yy - 2 * c0 * (a * b0 + b * b1) - 2 * c1 * (b * b0 + d * b1)
      + c0 * c0 * a + 2 * c0 * c1 * b + c1 * c1 * d
    - (yy - 2 * b0 * (a * b0 + b * b1) - 2 * b1 * (b * b0 + d * b1)
      + b0 * b0 * a + 2 * b0 * b1 * b + b1 * b1 * d)
    == (c0 - b0) * (c0 - b0) * a + 2 * (c0 - b0) * (c1 - b1) * b
       + (c1 - b1) * (c1 - b1) * d) by ring.
  lra.
Qed.

End SolverFacts.

(** ** The rolling regressor with the exact solver *)

Section ExactRegressor.
Import Pandas Statsmodels.
Local Open Scope Q_scope.

Lemma slice_map {A B : Type} (f : A -> B) (l : list A) (lo hi : option Z) :
  map f (Py.slice l lo hi) = Py.slice (map f l) lo hi.
Proof.
  unfold Py.slice, Py.len. rewrite length_map.
  now rewrite skipn_map, firstn_map.
Qed.

Lemma ones_det (xs : list Q) :
  ~ variance xs == 0 ->
  ~ dot (repeat 1 (length xs)) (repeat 1 (length xs)) * dot xs xs
    - dot (repeat 1 (length xs)) xs * dot (repeat 1 (length xs)) xs == 0.
Proof.
  intros Hvar. rewrite dot_ones_ones, dot_ones, gram_det_variance.
  intros Hzero.
  assert (Hq : ~ inject_Z (Z.of_nat (length xs)) == 0).
  { change 0 with (inject_Z 0). rewrite inject_Z_injective.
    destruct xs; [exfalso; apply Hvar; reflexivity | simpl length; lia]. }
  apply Qmult_integral in Hzero as [Hnn | Hv]; [| contradiction].
  apply Qmult_integral in Hnn as [Hn0 | Hn0]; contradiction.
Qed.

(** The solver on a pair of aligned sub-windows without NaN, the
    regressor's having non-zero variance: the design is (ones, x) and the
    coefficients come in that order. *)
Lemma OLS_fit_params_window (wy wx : Series) (xs ys : list Q) :
  all_values (s_values wx) = Some xs ->
  all_values (s_values wy) = Some ys ->
  s_index wy = s_index wx ->
  ~ variance xs == 0 ->
  columns (add_constant wx) = ["const"%string; name wx] /\
  OLS_fit_params wy (add_constant wx) =
    Ok (map Some (lstsq2 (repeat 1 (length xs)) xs ys)).
Proof.
  intros Hxs Hys Hidx Hvar.
  pose proof (safe_is_const_variance _ Hxs Hvar) as Hnc.
  pose proof (all_values_length _ Hxs) as Hlen.
  unfold add_constant. rewrite Hnc. split; [reflexivity |].
  unfold OLS_fit_params. cbn [index cols].
  destruct (s_index wx) as [| t0 idx] eqn:Hix.
  { exfalso. apply Hvar.
    unfold s_index, s_values in *. rewrite length_map in Hlen.
    apply (f_equal (@length _)) in Hix. rewrite length_map in Hix. simpl in Hix.
    destruct xs; [reflexivity | simpl in Hlen; lia]. }
  cbn [all_columns]. rewrite all_values_ones, Hxs, Hys, Hidx.
  rewrite index_eqb_refl. cbn [negb].
  assert (Hn : length (items wx) = length xs).
  { unfold s_values in Hlen. rewrite length_map in Hlen. lia. }
  now rewrite Hn.
Qed.

Lemma lstsq2_pair (u v y : list Q) : exists b0 b1, lstsq2 u v y = [b0; b1].
Proof.
  unfold lstsq2.
  destruct (Qeq_bool _ 0); [destruct (Qeq_bool _ 0) |]; eauto.
Qed.

Lemma regression_rows_columns (xs ys : list Q) :
  length xs = length ys ->
  col_u (regression_rows xs ys) = repeat 1 (length xs) /\
  col_v (regression_rows xs ys) = xs /\
  col_y (regression_rows xs ys) = ys.
Proof.
  unfold col_u, col_v, col_y, regression_rows. rewrite !map_map. simpl.
  revert ys; induction xs as [| a xs IH]; intros [| b ys] Hlen; simpl in *;
    try discriminate; [auto |].
  destruct (IH ys) as (Hu & Hv & Hy); [lia |].
  now rewrite Hu, Hv, Hy.
Qed.

Lemma window_index (s : Series) (window i : Z) :
  s_index (series_slice s (Some i) (Some (i + window)%Z)) =
  Py.slice (s_index s) (Some i) (Some (i + window)%Z).
Proof. unfold s_index, series_slice. simpl. apply slice_map. Qed.

(** What [RollingOLS] records with the exact solver, in exact arithmetic
    (the doubles of the library agree with it up to rounding only), for aligned series
    without NaN whose [x] sub-windows have non-zero variance: row [i] holds
    a pair (b0, b1) that minimises the sum of squared residuals
    [y - (b0 * 1 + b1 * x)] over the sub-window, so [b0] is the fitted
    intercept and [b1] the fitted slope; [b0] is stored under the label
    [x] and [b1] under the label [intercept]. *)
Lemma RollingOLS_least_squares (y x : Series) (window : Z) :
  (0 <= window)%Z ->
  s_index x = s_index y ->
  (forall i : Z, (0 <= i < Py.len (items y) - window)%Z ->
     exists xs ys,
       window_values x window i = Some xs /\
       window_values y window i = Some ys /\
       ~ variance xs == 0) ->
  exists df,
    RollingOLS OLS_fit_params y x window = Ok df /\
    forall (i : nat) (xs ys : list Q),
      (Z.of_nat i < Py.len (items y) - window)%Z ->
      window_values x window (Z.of_nat i) = Some xs ->
      window_values y window (Z.of_nat i) = Some ys ->
      exists b0 b1 : Q,
        at_ df i "x" = Some (Some b0) /\
        at_ df i "intercept" = Some (Some b1) /\
        forall c0 c1 : Q,
          sse (regression_rows xs ys) b0 b1 <= sse (regression_rows xs ys) c0 c1.
Proof.
  intros Hw Halign Hwin.
  assert (Hfit : forall i : Z, (0 <= i < Py.len (items y) - window)%Z ->
            forall xs ys,
              window_values x window i = Some xs ->
              window_values y window i = Some ys ->
              length xs = length ys /\ ~ variance xs == 0 /\
              OLS_fit_params (y_window y window i) (x_window x window i) =
                Ok (map Some (lstsq2 (repeat 1 (length xs)) xs ys))).
  { intros i Hi xs ys Hxs Hys.
    destruct (Hwin i Hi) as (xs' & ys' & Hxs' & Hys' & Hvar).
    rewrite Hxs in Hxs'. injection Hxs' as <-. clear Hys'.
    unfold window_values in Hxs, Hys.
    assert (Hidx : s_index (y_window y window i) =
                   s_index (series_slice x (Some i) (Some (i + window)%Z))).
    { unfold y_window. rewrite !window_index. now rewrite Halign. }
    split; [| split; [exact Hvar |]].
    - rewrite (all_values_length _ Hxs), (all_values_length _ Hys).
      unfold s_values. rewrite !length_map.
      apply (f_equal (@length _)) in Hidx. unfold s_index in Hidx.
      rewrite !length_map in Hidx. unfold y_window in Hidx. now symmetry.
    - unfold x_window.
      apply (OLS_fit_params_window _ _ Hxs Hys Hidx Hvar). }
  assert (Hfits : fits_ok OLS_fit_params y x window).
  { intros i Hi. destruct (Hwin i Hi) as (xs & ys & Hxs & Hys & _).
    destruct (Hfit i Hi xs ys Hxs Hys) as (_ & _ & Hrun).
    destruct (lstsq2_pair (repeat 1 (length xs)) xs ys) as (b0 & b1 & Hb).
    rewrite Hb in Hrun. now exists (Some b0), (Some b1). }
  destruct (@RollingOLS_row_fields OLS_fit_params y x window Hw Hfits) as (df & Hdf & Hrows).
  exists df. split; [exact Hdf |].
  intros i xs ys Hi Hxs Hys.
  destruct (Hfit (Z.of_nat i)) with (xs := xs) (ys := ys) as (Hlen & Hvar & Hrun);
    [lia | assumption | assumption |].
  destruct (lstsq2_pair (repeat 1 (length xs)) xs ys) as (b0 & b1 & Hb).
  rewrite Hb in Hrun.
  destruct (Hrows i (Some b0) (Some b1) Hi Hrun) as [Hx Hint].
  exists b0, b1. split; [exact Hx |]. split; [exact Hint |].
  destruct (regression_rows_columns xs ys Hlen) as (Hu & Hv & Hy).
  apply lstsq2_least_squares.
  - rewrite Hu, Hv. now apply ones_det.
  - now rewrite Hu, Hv, Hy.
Qed.

(** The same series on both sides: on sub-windows without NaN and with
    non-zero variance every row holds 0 under the label [x] and 1 under the
    label [intercept]. *)
Lemma RollingOLS_identical_series (s : Series) (window : Z) :
  (0 <= window)%Z ->
  (forall i : Z, (0 <= i < Py.len (items s) - window)%Z ->
     exists qs, window_values s window i = Some qs /\ ~ variance qs == 0) ->
  exists df,
    RollingOLS OLS_fit_params s s window = Ok df /\
    forall i : nat, (Z.of_nat i < Py.len (items s) - window)%Z ->
      at_ df i "x" = Some (Some 0) /\ at_ df i "intercept" = Some (Some 1).
Proof.
  intros Hw Hwin.
  assert (Hfit : forall i : Z, (0 <= i < Py.len (items s) - window)%Z ->
            OLS_fit_params (y_window s window i) (x_window s window i) =
              Ok [Some 0; Some 1]).
  { intros i Hi. destruct (Hwin i Hi) as (qs & Hqs & Hvar).
    unfold x_window, y_window.
    destruct (OLS_fit_params_window _ _ Hqs Hqs eq_refl Hvar) as [_ Hrun].
    rewrite Hrun. now rewrite lstsq2_same by now apply ones_det. }
  assert (Hfits : fits_ok OLS_fit_params s s window).
  { intros i Hi. exists (Some 0), (Some 1). now apply Hfit. }
  destruct (@RollingOLS_row_fields OLS_fit_params s s window Hw Hfits) as (df & Hdf & Hrows).
  exists df. split; [exact Hdf |].
  intros i Hi. apply Hrows; [assumption |]. apply Hfit. lia.
Qed.

End ExactRegressor.

(** The two lemmas at work on the sample data. *)
Lemma RollingOLS_least_squares_demo :
  exists df,
    RollingOLS Statsmodels.OLS_fit_params y_demo x_demo 2 = Ok df /\
    forall (i : nat) (xs ys : list Q),
      (Z.of_nat i < Py.len (Pandas.items y_demo) - 2)%Z ->
      window_values x_demo 2 (Z.of_nat i) = Some xs ->
      window_values y_demo 2 (Z.of_nat i) = Some ys ->
      exists b0 b1 : Q,
        Pandas.at_ df i "x" = Some (Some b0) /\
        Pandas.at_ df i "intercept" = Some (Some b1) /\
        forall c0 c1 : Q,
          (sse (regression_rows xs ys) b0 b1 <= sse (regression_rows xs ys) c0 c1)%Q.
Proof.
  apply RollingOLS_least_squares.
  - discriminate.
  - reflexivity.
  - intros i Hi.
    assert (Hcases : i = 0%Z \/ i = 1%Z) by (clear - Hi; unfold Py.len in Hi; simpl in Hi; lia).
    destruct Hcases as [-> | ->]; do 2 eexists;
      (split; [vm_compute; reflexivity |]); (split; [vm_compute; reflexivity |]);
      vm_compute; discriminate.
Defined.

Example RollingOLS_identical_series_demo :
  exists df,
    RollingOLS Statsmodels.OLS_fit_params same_demo same_demo 5 = Ok df /\
    forall i : nat, (Z.of_nat i < Py.len (Pandas.items same_demo) - 5)%Z ->
      Pandas.at_ df i "x" = Some (Some 0%Q) /\
      Pandas.at_ df i "intercept" = Some (Some 1%Q).
Proof.
  apply RollingOLS_identical_series.
  - discriminate.
  - intros i Hi.
    assert (Hcases : i = 0%Z \/ i = 1%Z) by (clear - Hi; unfold Py.len in Hi; simpl in Hi; lia).
    destruct Hcases as [-> | ->]; eexists;
      (split; [vm_compute; reflexivity |]); vm_compute; discriminate.
Qed.

(** * Further properties of the two functions *)

(** ** The rolling regressor: loop bound and failures *)

Lemma RollingOLS_negative_window_witness :
  exists e, RollingOLS Statsmodels.OLS_fit_params y_demo x_demo (-1) = Raise e.
Proof.
  apply (@RollingOLS_negative_window Statsmodels.OLS_fit_params y_demo x_demo (-1)).
  reflexivity.
Defined.

Lemma for_each_ext_in {S I : Type} (body1 body2 : S -> I -> Result S) (its : list I) :
  (forall s i, In i its -> body1 s i = body2 s i) ->
  forall s, for_each body1 its s = for_each body2 its s.
Proof.
  induction its as [| i its IH]; intros Hext s; simpl; [reflexivity |].
  rewrite (Hext s i) by now left.
  destruct (body2 s i) as [s1 | e]; simpl; [| reflexivity].
  apply IH. intros s0 j Hj. apply Hext. now right.
Qed.

Lemma for_each_app {S I : Type} (body : S -> I -> Result S) (l1 l2 : list I) (s : S) :
  for_each body (l1 ++ l2) s = (s1 <- for_each body l1 s ;; for_each body l2 s1).
Proof.
  revert s; induction l1 as [| i l1 IH]; intros s; simpl; [reflexivity |].
  destruct (body s i) as [s1 | e]; simpl; [apply IH | reflexivity].
Qed.

(** A sub-window that ends at or before position [m] is read off the
    first [m] observations. *)
Lemma slice_of_prefix {A : Type} (l l' : list A) (m : nat) (i w : Z) :
  (0 <= i)%Z -> (0 <= w)%Z -> (i + w <= Z.of_nat m)%Z ->
  firstn m l' = firstn m l ->
  Py.slice l' (Some i) (Some (i + w)%Z) = Py.slice l (Some i) (Some (i + w)%Z).
Proof.
  intros Hi Hw Hm Hpre.
  rewrite !slice_window by assumption.
  rewrite !firstn_skipn_comm.
  assert (Hcut : forall k : list A,
            firstn (Z.to_nat i + Z.to_nat w) k
            = firstn (Z.to_nat i + Z.to_nat w) (firstn m k)).
  { intros k. rewrite firstn_firstn. f_equal. lia. }
  rewrite (Hcut l'), (Hcut l). now rewrite Hpre.
Qed.

(** X2. The newest observation never enters a fit: two calls whose [y]
    carry the same timestamps and whose [y] and [x] agree on all but the
    last of the [len(y)] observations (of [x], on its first [len(y) - 1])
    give the same outcome, for any solver. *)
Theorem RollingOLS_ignores_newest
  (fit : Pandas.Series -> Pandas.DataFrame -> Result (list cell))
  (y y' x x' : Pandas.Series) (window : Z) :
  (0 < window)%Z ->
  Pandas.s_index y' = Pandas.s_index y ->
  Pandas.name y' = Pandas.name y ->
  Pandas.name x' = Pandas.name x ->
  firstn (length (Pandas.items y) - 1) (Pandas.items y')
    = firstn (length (Pandas.items y) - 1) (Pandas.items y) ->
  firstn (length (Pandas.items y) - 1) (Pandas.items x')
    = firstn (length (Pandas.items y) - 1) (Pandas.items x) ->
  RollingOLS fit y' x' window = RollingOLS fit y x window.
Proof.
  intros Hw Hidx Hny Hnx Hy Hx.
  assert (Hlen : length (Pandas.items y') = length (Pandas.items y)).
  { apply (f_equal (@length _)) in Hidx. unfold Pandas.s_index in Hidx.
    now rewrite !length_map in Hidx. }
  unfold RollingOLS.
  rewrite !result_index by lia. rewrite Hidx.
  unfold Py.len. rewrite Hlen.
  apply for_each_ext_in. intros r i Hin.
  unfold Py.range in Hin. apply in_map_iff in Hin as (k & <- & Hk).
  apply in_seq in Hk.
  unfold RollingOLS_body, Pandas.series_slice.
  rewrite Hny, Hnx.
  rewrite (@slice_of_prefix _ (Pandas.items y) (Pandas.items y')
             (length (Pandas.items y) - 1)) by (assumption || lia).
  rewrite (@slice_of_prefix _ (Pandas.items x) (Pandas.items x')
             (length (Pandas.items y) - 1)) by (assumption || lia).
  reflexivity.
Qed.

Lemma RollingOLS_ignores_newest_witness :
  RollingOLS Statsmodels.OLS_fit_params y_demo_late x_demo_late 2 =
  RollingOLS Statsmodels.OLS_fit_params y_demo x_demo 2.
Proof.
  apply (@RollingOLS_ignores_newest Statsmodels.OLS_fit_params
           y_demo y_demo_late x_demo x_demo_late 2); reflexivity.
Defined.

(** X3. A failure of the solver is the failure of the call: when the
    passes before offset [k] yield pairs and the solver raises at offset
    [k], the call raises that exception. *)
Theorem RollingOLS_solver_failure
  (fit : Pandas.Series -> Pandas.DataFrame -> Result (list cell))
  (y x : Pandas.Series) (window : Z) (k : nat) (e : Exn) :
  (0 <= window)%Z ->
  (Z.of_nat k < Py.len (Pandas.items y) - window)%Z ->
  (forall j : nat, j < k ->
     exists c0 c1 : cell,
       fit (y_window y window (Z.of_nat j)) (x_window x window (Z.of_nat j)) = Ok [c0; c1]) ->
  fit (y_window y window (Z.of_nat k)) (x_window x window (Z.of_nat k)) = Raise e ->
  RollingOLS fit y x window = Raise e.
Proof.
  intros Hw Hk Hbefore Hfail. unfold RollingOLS.
  rewrite result_index by assumption.
  set (idx := skipn (Z.to_nat window) (Pandas.s_index y)).
  set (n := Z.to_nat (Py.len (Pandas.items y) - window)).
  assert (Hrange : Py.range (Py.len (Pandas.items y) - window) =
                   map Z.of_nat (seq 0 k) ++ Z.of_nat k :: map Z.of_nat (seq (S k) (n - S k))).
  { unfold Py.range. fold n.
    replace n with (k + S (n - S k)) at 1 by (unfold n; lia).
    rewrite seq_app, map_app. simpl. reflexivity. }
  rewrite Hrange, for_each_app.
  destruct (@for_each_seq_inv _ (RollingOLS_body fit y x window)
              (fun _ df => two_columns idx df) k 0
              (Pandas.new_frame ["x"%string; "intercept"%string] idx))
    as (df & Hrun & _).
  - apply new_frame_two_columns.
  - intros j df0 Hj Hshape.
    destruct (Hbefore j) as (c0 & c1 & Hfit); [lia |].
    unfold RollingOLS_body. unfold y_window, x_window in Hfit. rewrite Hfit. simpl.
    destruct (@iloc_set_row_pair idx df0 j c0 c1 Hshape) as (df1 & Hset & Hshape1 & _).
    + unfold idx, Pandas.s_index. rewrite length_skipn, length_map.
      unfold Py.len in Hk. lia.
    + now exists df1.
  - rewrite Hrun. simpl. unfold RollingOLS_body.
    unfold y_window, x_window in Hfail. now rewrite Hfail.
Qed.

Lemma RollingOLS_solver_failure_witness :
  RollingOLS Statsmodels.OLS_fit_params y_demo x_gap 2 =
  Raise (MissingDataError "exog contains inf or nans").
Proof.
  apply (@RollingOLS_solver_failure Statsmodels.OLS_fit_params y_demo x_gap 2 1).
  - discriminate.
  - reflexivity.
  - intros [| j] Hj; [| lia]. do 2 eexists. vm_compute. reflexivity.
  - vm_compute. reflexivity.
Defined.

(** ** The price fetcher: requests and failures *)

Section FetcherMore.
Import Pandas.

Variable history : Request -> Result DataFrame.
Variable now : string.
Variable start_date : string.
Variable end_date : option string.
Variable frequency : string.

Lemma fetch_each_requests (fields : FieldsArg) (l : list string) :
  forall prices_df : DataFrame,
  exists k : nat,
    k <= length l /\
    fst (fetch_each history now l start_date end_date frequency fields prices_df) =
      map (fun s => request_for now start_date end_date frequency (Symbol s)) (firstn k l) /\
    (forall df,
       snd (fetch_each history now l start_date end_date frequency fields prices_df) = Ok df ->
       k = length l) /\
    (l <> [] -> 0 < k).
Proof.
  induction l as [| item rest IH]; intros prices_df.
  - exists 0. simpl. repeat split; auto. congruence.
  - cbn [fetch_each]. rewrite fetch_one_request.
    destruct (df <- (df <- history _ ;; process df fields) ;;
              sel <- getitem_fields df fields ;; setitem prices_df item sel)
      as [prices_df' | e].
    + destruct (IH prices_df') as (k & Hk & Hlog & Hok & _).
      destruct (fetch_each history now rest start_date end_date frequency fields prices_df')
        as [calls r].
      exists (S k). simpl in *. repeat split.
      * lia.
      * now rewrite Hlog.
      * intros df Hdf. f_equal. now apply (Hok df).
      * lia.
    + exists 1. simpl. repeat split; try lia; try reflexivity. discriminate.
Qed.


End FetcherMore.

(** X5. The multi-symbol branch asks the provider symbol by symbol in the
    order of the list and stops at the first symbol that fails: for any
    provider, the requests made are those of a prefix of the list (not
    empty unless the list is), all with the same dates and interval, and
    of the whole list when the call returns. *)
Theorem get_pricing_requests_in_order
  (history : Request -> Result Pandas.DataFrame) (now : string)
  (l : list string) (start_date : string) (end_date : option string) (frequency : string)
  (fields : FieldsArg) :
  fields_given fields = true ->
  exists k : nat,
    k <= length l /\
    fst (get_pricing history now (Symbols l) start_date end_date frequency fields) =
      map (fun s => request_for now start_date end_date frequency (Symbol s)) (firstn k l) /\
    (forall df,
       snd (get_pricing history now (Symbols l) start_date end_date frequency fields) = Ok df ->
       k = length l) /\
    (l <> [] -> 0 < k).
Proof.
  intros Hgiven. unfold get_pricing. rewrite Hgiven.
  destruct (@fetch_each_requests history now start_date end_date frequency fields l
              Pandas.empty_frame) as (k & Hk & Hlog & Hok & Hpos).
  destruct (fetch_each history now l start_date end_date frequency fields Pandas.empty_frame)
    as [calls r].
  exists k. simpl in *. repeat split; try assumption.
  intros df Hdf. destruct r as [df0 | e]; [| discriminate].
  now apply (Hok df0).
Qed.

Lemma get_pricing_requests_in_order_witness :
  exists k : nat,
    k <= 3 /\
    fst (get_pricing demo_history "2024-01-01" (Symbols ["A"; "C"; "B"]%string) "1900-01-01"
           None "daily" (FieldStr "price")) =
      map (fun s => request_for "2024-01-01" "1900-01-01" None "daily" (Symbol s))
          (firstn k ["A"; "C"; "B"]%string) /\
    k = 2.
Proof.
  destruct (@get_pricing_requests_in_order demo_history "2024-01-01" ["A"; "C"; "B"]%string
              "1900-01-01" None "daily" (FieldStr "price") eq_refl)
    as (k & Hk & Hlog & _ & _).
  exists k. split; [exact Hk |]. split; [exact Hlog |].
  assert (Hlen : length (fst (get_pricing demo_history "2024-01-01"
                                (Symbols ["A"; "C"; "B"]%string) "1900-01-01" None "daily"
                                (FieldStr "price"))) = 2) by reflexivity.
  rewrite Hlog, length_map, length_firstn in Hlen. simpl in Hk, Hlen. lia.
Defined.



(** ** The price fetcher: selecting fields on the single-symbol path *)

(** The "process data" step on a native table, for any [fields]. *)
Lemma process_native (t : Pandas.DataFrame) (fields : FieldsArg) :
  native_table t ->
  process t fields =
  if fields_given fields
  then Pandas.getitem_list (normalized_frame t) (Py.split_comma (join_fields fields))
  else Ok (normalized_frame t).
Proof.
  intros Hnat.
  destruct (native_table_cols Hnat) as (o & h & l & c & v & d & sp & Hcols & Hc).
  unfold process, normalized_frame, column_of.
  unfold Pandas.rename_columns, Pandas.drop_columns, Pandas.columns, Pandas.getitem,
    Pandas.rename_label.
  rewrite Hcols. simpl.
  pose proof (@setitem_own_column
             (Pandas.mkFrame (Pandas.index t)
                [("open_price", o); ("high", h); ("low", l); ("close_price", c);
                 ("volume", v)]%string) "price" "close_price" c Hc) as Hset.
  simpl in Hset. rewrite Hset. reflexivity.
Qed.

(** Every requested name a normalized column: the columns come out in the
    order of the request. *)
Lemma pick_normalized (t : Pandas.DataFrame) (keys : list string) :
  Forall (fun k => In k normalized_columns) keys ->
  Pandas.pick_columns (Pandas.cols (normalized_frame t)) keys =
  Ok (map (fun f => (f, column_of t (native_label f))) keys).
Proof.
  induction 1 as [| k keys Hk _ IH]; [reflexivity |].
  cbn [Pandas.pick_columns map]. rewrite IH.
  unfold normalized_columns in Hk. simpl in Hk.
  repeat (destruct Hk as [<- | Hk]; [reflexivity |]); contradiction.
Qed.

Lemma filter_unknown (t : Pandas.DataFrame) (k : string) :
  ~ In k normalized_columns ->
  filter (Pandas.has_label k) (Pandas.cols (normalized_frame t)) = [].
Proof.
  intros Hk. unfold normalized_frame, normalized_columns.
  cbn [Pandas.cols map filter]. unfold Pandas.has_label. cbn [fst].
  repeat match goal with
         | |- context [String.eqb ?a k] =>
             destruct (String.eqb_spec a k) as [Heq | _];
               [exfalso; apply Hk; rewrite <- Heq; simpl; tauto |]
         end.
  reflexivity.
Qed.

Lemma filter_known (t : Pandas.DataFrame) (k : string) :
  In k normalized_columns ->
  filter (Pandas.has_label k) (Pandas.cols (normalized_frame t)) =
  [(k, column_of t (native_label k))].
Proof.
  intros Hk. unfold normalized_columns in Hk. simpl in Hk.
  repeat (destruct Hk as [<- | Hk]; [reflexivity |]); contradiction.
Qed.

(** A requested name that is no normalized column: a [KeyError] for the
    first such name. *)
Lemma pick_unknown (t : Pandas.DataFrame) (keys : list string) :
  Exists (fun k => ~ In k normalized_columns) keys ->
  exists k, In k keys /\ ~ In k normalized_columns /\
            Pandas.pick_columns (Pandas.cols (normalized_frame t)) keys = Raise (KeyError k).
Proof.
  induction keys as [| k keys IH]; intros Hex; [inversion Hex |].
  cbn [Pandas.pick_columns].
  destruct (in_dec string_dec k normalized_columns) as [Hin | Hout].
  - rewrite (filter_known t Hin).
    inversion Hex as [? ? Hbad | ? ? Hrest]; subst; [contradiction |].
    destruct (IH Hrest) as (k' & Hk' & Hbad' & Hrun).
    exists k'. rewrite Hrun. simpl. auto.
  - rewrite (filter_unknown t Hout). exists k. simpl. auto.
Qed.

(** X7. On the single-symbol path, with a native table and every
    requested name one of the six fields, the result has the requested
    columns in the order of the request (a name asked twice comes twice),
    each with the provider's cells, over all the rows of the table. *)
Theorem get_pricing_selects_in_order
  (history : Request -> Result Pandas.DataFrame) (now : string)
  (s : string) (start_date : string) (end_date : option string) (frequency : string)
  (fields : FieldsArg) (t : Pandas.DataFrame) :
  history (request_for now start_date end_date frequency (Symbol s)) = Ok t ->
  native_table t ->
  fields_given fields = true ->
  Forall (fun k => In k normalized_columns) (Py.split_comma (join_fields fields)) ->
  get_pricing history now (Symbol s) start_date end_date frequency fields =
    ([request_for now start_date end_date frequency (Symbol s)],
     Ok (Pandas.mkFrame (Pandas.index t)
           (map (fun f => (f, column_of t (native_label f)))
                (Py.split_comma (join_fields fields))))).
Proof.
  intros Hhist Hnat Hgiven Hknown. unfold get_pricing.
  rewrite fetch_one_request, Hhist. simpl.
  rewrite (process_native fields Hnat), Hgiven.
  unfold Pandas.getitem_list. now rewrite (pick_normalized t Hknown).
Qed.

Lemma get_pricing_selects_in_order_witness :
  get_pricing demo_history "2024-01-01" (Symbol "A") "1900-01-01" None "daily"
      (FieldStr "low,price,low") =
    ([request_for "2024-01-01" "1900-01-01" None "daily" (Symbol "A")],
     Ok (Pandas.mkFrame (Pandas.index table_A)
           (map (fun f => (f, column_of table_A (native_label f)))
                (Py.split_comma (join_fields (FieldStr "low,price,low")))))).
Proof.
  apply (@get_pricing_selects_in_order demo_history "2024-01-01" "A" "1900-01-01" None
           "daily" (FieldStr "low,price,low") table_A).
  - reflexivity.
  - split; [reflexivity |]. unfold well_formed. vm_compute. repeat constructor.
  - reflexivity.
  - vm_compute. repeat constructor; tauto.
Defined.

(** X8. On the single-symbol path, with a native table, a requested name
    that is none of the six fields makes the call raise [KeyError] for
    such a name; an empty name, as a trailing comma leaves behind, is one. *)
Theorem get_pricing_unknown_field
  (history : Request -> Result Pandas.DataFrame) (now : string)
  (s : string) (start_date : string) (end_date : option string) (frequency : string)
  (fields : FieldsArg) (t : Pandas.DataFrame) :
  history (request_for now start_date end_date frequency (Symbol s)) = Ok t ->
  native_table t ->
  fields_given fields = true ->
  Exists (fun k => ~ In k normalized_columns) (Py.split_comma (join_fields fields)) ->
  exists k,
    In k (Py.split_comma (join_fields fields)) /\
    ~ In k normalized_columns /\
    get_pricing history now (Symbol s) start_date end_date frequency fields =
      ([request_for now start_date end_date frequency (Symbol s)], Raise (KeyError k)).
Proof.
  intros Hhist Hnat Hgiven Hbad. unfold get_pricing.
  rewrite fetch_one_request, Hhist. simpl.
  rewrite (process_native fields Hnat), Hgiven.
  destruct (pick_unknown t Hbad) as (k & Hk & Hout & Hrun).
  exists k. split; [assumption |]. split; [assumption |].
  unfold Pandas.getitem_list. now rewrite Hrun.
Qed.

Lemma get_pricing_unknown_field_witness :
  exists k,
    In k (Py.split_comma (join_fields (FieldStr "high,"))) /\
    ~ In k normalized_columns /\
    get_pricing demo_history "2024-01-01" (Symbol "A") "1900-01-01" None "daily"
        (FieldStr "high,") =
      ([request_for "2024-01-01" "1900-01-01" None "daily" (Symbol "A")],
       Raise (KeyError k)).
Proof.
  apply (@get_pricing_unknown_field demo_history "2024-01-01" "A" "1900-01-01" None
           "daily" (FieldStr "high,") table_A).
  - reflexivity.
  - split; [reflexivity |]. unfold well_formed. vm_compute. repeat constructor.
  - reflexivity.
  - apply Exists_cons_tl, Exists_cons_hd. vm_compute. intuition discriminate.
Defined.

(** X9. On the single-symbol path a list of names counts as the one
    string the names make when written one after the other: the call with
    the list is the call with that string, for any provider. *)
Theorem get_pricing_list_is_concatenation
  (history : Request -> Result Pandas.DataFrame) (now : string)
  (s : string) (start_date : string) (end_date : option string) (frequency : string)
  (l : list string) :
  Py.join_empty l <> EmptyString ->
  get_pricing history now (Symbol s) start_date end_date frequency (FieldList l) =
  get_pricing history now (Symbol s) start_date end_date frequency
    (FieldStr (Py.join_empty l)).
Proof.
  intros Hne. unfold get_pricing, fetch_one, process.
  assert (Hlist : fields_given (FieldList l) = true).
  { destruct l; [contradiction | reflexivity]. }
  assert (Hstr : fields_given (FieldStr (Py.join_empty l)) = true).
  { simpl. destruct (String.eqb_spec (Py.join_empty l) EmptyString); [contradiction |].
    reflexivity. }
  rewrite Hlist, Hstr. reflexivity.
Qed.

Lemma get_pricing_list_is_concatenation_witness :
  get_pricing demo_history "2024-01-01" (Symbol "A") "1900-01-01" None "daily"
    (FieldList ["high,"; "low"]%string) =
  get_pricing demo_history "2024-01-01" (Symbol "A") "1900-01-01" None "daily"
    (FieldStr (Py.join_empty ["high,"; "low"]%string)).
Proof.
  apply (@get_pricing_list_is_concatenation demo_history "2024-01-01" "A" "1900-01-01" None
           "daily" ["high,"; "low"]%string).
  discriminate.
Defined.

(** Renaming does not touch a label that is neither one of the five
    provider names nor one of the five normalized names. *)
Lemma rename_label_other (label c : string) :
  existsb (String.eqb label) ["open_price"; "high"; "low"; "close_price"; "volume"]%string
    = false ->
  existsb (String.eqb label) ["Open"; "High"; "Low"; "Close"; "Volume"]%string = false ->
  String.eqb label
    (Pandas.rename_label
       [("Open", "open_price"); ("High", "high"); ("Low", "low");
        ("Close", "close_price"); ("Volume", "volume")]%string c) =
  String.eqb label c.
Proof.
  intros Htarget Hsource. unfold Pandas.rename_label. cbn [find fst snd].
  cbn [existsb] in Htarget, Hsource.
  repeat (apply orb_false_iff in Htarget as [? Htarget]).
  repeat (apply orb_false_iff in Hsource as [? Hsource]).
  repeat match goal with
         | |- context [if String.eqb ?a c then _ else _] =>
             destruct (String.eqb_spec a c) as [<- | _]; [cbn [snd]; congruence |]
         end.
  reflexivity.
Qed.

Lemma renamed_has_label (t : Pandas.DataFrame) (label : string) :
  existsb (String.eqb label) ["open_price"; "high"; "low"; "close_price"; "volume"]%string
    = false ->
  existsb (String.eqb label) ["Open"; "High"; "Low"; "Close"; "Volume"]%string = false ->
  existsb (String.eqb label)
    (Pandas.columns
       (Pandas.rename_columns t
          [("Open", "open_price"); ("High", "high"); ("Low", "low");
           ("Close", "close_price"); ("Volume", "volume")]%string)) =
  existsb (String.eqb label) (Pandas.columns t).
Proof.
  intros Htarget Hsource.
  unfold Pandas.columns, Pandas.rename_columns. cbn [Pandas.cols].
  rewrite map_map. cbn [fst].
  induction (Pandas.cols t) as [| [c col] cs IH]; [reflexivity |].
  cbn [map existsb fst]. rewrite IH.
  now rewrite (@rename_label_other label c Htarget Hsource).
Qed.

(** X10. A provider table without the column [Dividends] (a frame with
    no columns at all, say) makes the single-symbol path raise the
    [KeyError] of [drop], whatever the fields: the exception names those
    of [Dividends] and [Stock Splits] that the table lacks, [Dividends]
    among them. *)
Theorem get_pricing_missing_provider_column
  (history : Request -> Result Pandas.DataFrame) (now : string)
  (s : string) (start_date : string) (end_date : option string) (frequency : string)
  (fields : FieldsArg) (t : Pandas.DataFrame) :
  history (request_for now start_date end_date frequency (Symbol s)) = Ok t ->
  ~ In "Dividends"%string (Pandas.columns t) ->
  get_pricing history now (Symbol s) start_date end_date frequency fields =
    ([request_for now start_date end_date frequency (Symbol s)],
     Raise (KeyErrorNotFound
              (filter (fun l => negb (existsb (String.eqb l) (Pandas.columns t)))
                      ["Dividends"; "Stock Splits"]%string))) /\
  In "Dividends"%string
     (filter (fun l => negb (existsb (String.eqb l) (Pandas.columns t)))
             ["Dividends"; "Stock Splits"]%string).
Proof.
  intros Hhist Hmissing.
  assert (Hnot : existsb (String.eqb "Dividends") (Pandas.columns t) = false).
  { apply not_true_is_false. intros Hex.
    apply existsb_exists in Hex as (c & Hin & Hc).
    apply String.eqb_eq in Hc. subst c. contradiction. }
  split.
  - unfold get_pricing. rewrite fetch_one_request, Hhist. cbn [bind].
    unfold process, Pandas.drop_columns. cbn [filter].
    rewrite !renamed_has_label by reflexivity.
    rewrite Hnot. cbn [negb].
    destruct (negb (existsb (String.eqb "Stock Splits") (Pandas.columns t))); reflexivity.
  - cbn [filter]. rewrite Hnot. cbn [negb]. now left.
Qed.

Lemma get_pricing_missing_provider_column_witness :
  get_pricing no_data_history "2024-01-01" (Symbol "A") "1900-01-01" None "daily" NoFields =
    ([request_for "2024-01-01" "1900-01-01" None "daily" (Symbol "A")],
     Raise (KeyErrorNotFound ["Dividends"; "Stock Splits"]%string)).
Proof.
  apply (@get_pricing_missing_provider_column no_data_history "2024-01-01" "A" "1900-01-01"
           None "daily" NoFields Pandas.empty_frame).
  - reflexivity.
  - simpl. tauto.
Defined.

(** ** The price fetcher: what the multi-symbol branch returns *)

Lemma length_keep_mask (n : nat) (cs : list (list cell)) :
  length (Pandas.keep_mask n cs) = n.
Proof.
  revert cs; induction n as [| n IH]; intros cs; simpl; [reflexivity |].
  now rewrite IH.
Qed.

(** A column that has run out of cells switches every later row off. *)
Lemma keep_mask_short_column (n : nat) (cs : list (list cell)) :
  In [] cs -> Pandas.keep_mask n cs = repeat false n.
Proof.
  revert cs; induction n as [| n IH]; intros cs Hin; simpl; [reflexivity |].
  rewrite IH by (apply in_map_iff; now exists []).
  f_equal. apply not_true_is_false. intros Hall.
  rewrite forallb_forall in Hall. specialize (Hall [] Hin). discriminate.
Qed.

Lemma select_none {A : Type} (n : nat) (l : list A) :
  Pandas.select (repeat false n) l = [].
Proof.
  revert l; induction n as [| n IH]; intros [| a l]; simpl; auto.
Qed.

(** The rows kept of one column: none of them is missing a value, and
    they are as many as the rows switched on. *)
Lemma select_kept_column (n : nat) :
  forall (cs : list (list cell)) (c : list cell),
    In c cs ->
    Forall (fun v => is_present v = true) (Pandas.select (Pandas.keep_mask n cs) c) /\
    length (Pandas.select (Pandas.keep_mask n cs) c) =
    length (filter (fun b : bool => b) (Pandas.keep_mask n cs)).
Proof.
  induction n as [| n IH]; intros cs c Hin; [simpl; auto |].
  destruct c as [| a c].
  - rewrite (keep_mask_short_column (S n) cs Hin), select_none.
    split; [constructor |].
    clear. induction (S n); simpl; auto.
  - cbn [Pandas.keep_mask].
    assert (Htl : In c (map (@tl (option Q)) cs)).
    { apply in_map_iff. now exists (a :: c). }
    destruct (IH _ c Htl) as [Hpresent Hcount].
    destruct (forallb (fun l => is_present (hd None l)) cs) eqn:Hrow; simpl.
    + rewrite forallb_forall in Hrow. specialize (Hrow (a :: c) Hin). simpl in Hrow.
      split; [now constructor | now rewrite Hcount].
    + now split.
Qed.

Lemma select_kept_index {A : Type} (mask : list bool) (idx : list A) :
  length idx = length mask ->
  length (Pandas.select mask idx) = length (filter (fun b : bool => b) mask).
Proof.
  revert idx; induction mask as [| b mask IH]; intros [| t idx] Hlen; simpl in *;
    try discriminate; [reflexivity |].
  destruct b; simpl; rewrite IH by lia; reflexivity.
Qed.

(** [dropna] of any frame: no cell is missing and every column has one
    cell per row. *)
Lemma dropna_complete (df : Pandas.DataFrame) :
  Forall (fun c => Forall (fun v => is_present v = true) (snd c) /\
                   length (snd c) = length (Pandas.index (Pandas.dropna df)))
         (Pandas.cols (Pandas.dropna df)).
Proof.
  unfold Pandas.dropna. cbn [Pandas.cols Pandas.index].
  set (cs := map snd (Pandas.cols df)).
  set (n := length (Pandas.index df)).
  rewrite Forall_map. apply Forall_forall. intros c Hc. cbn [snd].
  assert (Hin : In (snd c) cs) by (unfold cs; now apply in_map).
  destruct (select_kept_column n cs (snd c) Hin) as [Hpresent Hcount].
  split; [assumption |].
  rewrite Hcount. symmetry. apply select_kept_index.
  unfold n. now rewrite length_keep_mask.
Qed.

(** X11. Whatever the provider answers, a frame returned by the
    multi-symbol branch has no missing value, and each of its columns has
    one cell per row. *)
Theorem get_pricing_multi_symbol_complete
  (history : Request -> Result Pandas.DataFrame) (now : string)
  (l : list string) (start_date : string) (end_date : option string) (frequency : string)
  (fields : FieldsArg) (df : Pandas.DataFrame) :
  fields_given fields = true ->
  snd (get_pricing history now (Symbols l) start_date end_date frequency fields) = Ok df ->
  Forall (fun c => Forall (fun v => is_present v = true) (snd c) /\
                   length (snd c) = length (Pandas.index df))
         (Pandas.cols df).
Proof.
  intros Hgiven. unfold get_pricing. rewrite Hgiven.
  destruct (fetch_each history now l start_date end_date frequency fields Pandas.empty_frame)
    as [calls [df0 | e]]; simpl; [| discriminate].
  intros Hdf. injection Hdf as <-. apply dropna_complete.
Qed.

Lemma get_pricing_multi_symbol_complete_witness :
  exists df,
    snd (get_pricing demo_history "2024-01-01" (Symbols ["A"; "B"]%string) "1900-01-01" None
           "daily" (FieldStr "close_price")) = Ok df /\
    Pandas.index df = [2%Z] /\
    Forall (fun c => Forall (fun v => is_present v = true) (snd c) /\
                     length (snd c) = length (Pandas.index df))
           (Pandas.cols df).
Proof.
  eexists. split; [vm_compute; reflexivity |]. split; [reflexivity |].
  apply (@get_pricing_multi_symbol_complete demo_history "2024-01-01" ["A"; "B"]%string
           "1900-01-01" None "daily" (FieldStr "close_price")).
  - reflexivity.
  - vm_compute. reflexivity.
Defined.

(** X12. The provider never sees the words [daily] or [minute]: every
    request a call makes, on either path and also when the call fails,
    carries the caller's start date, the caller's end date (the clock's
    reading when none was given) and the interval code, which is [1d] for
    [daily], [1m] for [minute] and the caller's string otherwise. *)
Theorem get_pricing_requests_interval
  (history : Request -> Result Pandas.DataFrame) (now : string)
  (symbol : SymbolArg) (start_date : string) (end_date : option string) (frequency : string)
  (fields : FieldsArg) (r : Request) :
  In r (fst (get_pricing history now symbol start_date end_date frequency fields)) ->
  r = request_for now start_date end_date frequency (req_symbol r) /\
  req_interval r <> "daily"%string /\
  req_interval r <> "minute"%string /\
  (frequency = "daily"%string -> req_interval r = "1d"%string) /\
  (frequency = "minute"%string -> req_interval r = "1m"%string).
Proof.
  intros Hin.
  assert (Hreq : r = request_for now start_date end_date frequency (req_symbol r)).
  { unfold get_pricing in Hin.
    assert (Hone : forall sym,
              In r (fst (fetch_one history now sym start_date end_date frequency fields)) ->
              r = request_for now start_date end_date frequency (req_symbol r)).
    { intros sym Hr. rewrite fetch_one_request in Hr. simpl in Hr.
      destruct Hr as [<- | []]. reflexivity. }
    destruct symbol as [s | l]; [now apply (Hone (Symbol s)) |].
    destruct (fields_given fields); [| now apply (Hone (Symbols l))].
    destruct (@fetch_each_requests history now start_date end_date frequency fields l
                Pandas.empty_frame) as (k & _ & Hlog & _).
    destruct (fetch_each history now l start_date end_date frequency fields
                Pandas.empty_frame) as [calls res].
    simpl in *. rewrite Hlog in Hin.
    apply in_map_iff in Hin as (s & <- & _). reflexivity. }
  split; [exact Hreq |].
  rewrite Hreq. unfold request_for. cbn [req_interval].
  destruct (String.eqb_spec frequency "daily") as [-> | Hd].
  - repeat split; (discriminate || reflexivity).
  - destruct (String.eqb_spec frequency "minute") as [-> | Hm].
    + repeat split; (discriminate || reflexivity).
    + repeat split; (assumption || (intros H; contradiction)).
Qed.

Lemma get_pricing_requests_interval_witness :
  request_for "2024-01-01" "1900-01-01" None "daily" (Symbol "A") =
    request_for "2024-01-01" "1900-01-01" None "daily"
      (req_symbol (request_for "2024-01-01" "1900-01-01" None "daily" (Symbol "A"))) /\
  req_interval (request_for "2024-01-01" "1900-01-01" None "daily" (Symbol "A"))
    <> "daily"%string /\
  req_interval (request_for "2024-01-01" "1900-01-01" None "daily" (Symbol "A"))
    <> "minute"%string /\
  ("daily"%string = "daily"%string ->
   req_interval (request_for "2024-01-01" "1900-01-01" None "daily" (Symbol "A"))
     = "1d"%string) /\
  ("daily"%string = "minute"%string ->
   req_interval (request_for "2024-01-01" "1900-01-01" None "daily" (Symbol "A"))
     = "1m"%string).
Proof.
  apply (@get_pricing_requests_interval demo_history "2024-01-01" (Symbol "A") "1900-01-01"
           None "daily" NoFields).
  left. reflexivity.
Defined.

(** A name that is no label of the selected columns finds nothing. *)
Lemma filter_not_selected (g : string -> list cell) (key : string) (keys : list string) :
  ~ In key keys ->
  filter (Pandas.has_label key) (map (fun f => (f, g f)) keys) = [].
Proof.
  induction keys as [| k keys IH]; intros Hout; [reflexivity |].
  cbn [map filter]. unfold Pandas.has_label at 1. cbn [fst].
  destruct (String.eqb_spec k key) as [-> | _]; [exfalso; apply Hout; now left |].
  apply IH. intros Hin. apply Hout. now right.
Qed.

(** X13. The multi-symbol branch takes one field only.  With a non-empty
    list of symbols, the first answered by a native table, and [fields] a
    string of two or more of the six names separated by commas, the call
    raises [KeyError] for the whole string after the one request. *)
Theorem get_pricing_multi_symbol_several_fields
  (history : Request -> Result Pandas.DataFrame) (now : string)
  (s : string) (rest : list string)
  (start_date : string) (end_date : option string) (frequency : string)
  (str : string) (t : Pandas.DataFrame) :
  history (request_for now start_date end_date frequency (Symbol s)) = Ok t ->
  native_table t ->
  Forall (fun k => In k normalized_columns) (Py.split_comma str) ->
  2 <= length (Py.split_comma str) ->
  get_pricing history now (Symbols (s :: rest)) start_date end_date frequency (FieldStr str) =
    ([request_for now start_date end_date frequency (Symbol s)], Raise (KeyError str)).
Proof.
  intros Hhist Hnat Hknown Hmany.
  assert (Hout : ~ In str normalized_columns).
  { intros Hin. unfold normalized_columns in Hin. simpl in Hin.
    repeat (destruct Hin as [<- | Hin]; [vm_compute in Hmany; lia |]). contradiction. }
  assert (Hgiven : fields_given (FieldStr str) = true).
  { simpl. destruct (String.eqb_spec str EmptyString) as [-> | _]; [| reflexivity].
    vm_compute in Hmany. lia. }
  unfold get_pricing. rewrite Hgiven.
  cbn [fetch_each]. rewrite fetch_one_request, Hhist. cbn [bind].
  rewrite (process_native (FieldStr str) Hnat), Hgiven.
  unfold Pandas.getitem_list. cbn [join_fields].
  rewrite (pick_normalized t Hknown). cbn [bind getitem_fields].
  unfold Pandas.getitem. cbn [Pandas.cols].
  rewrite filter_not_selected; [reflexivity |].
  intros Hin. apply Hout.
  rewrite Forall_forall in Hknown. now apply Hknown.
Qed.

Lemma get_pricing_multi_symbol_several_fields_witness :
  get_pricing demo_history "2024-01-01" (Symbols ("A" :: ["B"])%string) "1900-01-01" None
      "daily" (FieldStr "open_price,close_price") =
    ([request_for "2024-01-01" "1900-01-01" None "daily" (Symbol "A")],
     Raise (KeyError "open_price,close_price")).
Proof.
  apply (@get_pricing_multi_symbol_several_fields demo_history "2024-01-01" "A" ["B"]%string
           "1900-01-01" None "daily" "open_price,close_price" table_A).
  - reflexivity.
  - split; [reflexivity |]. unfold well_formed. vm_compute. repeat constructor.
  - vm_compute. repeat constructor; tauto.
  - vm_compute. repeat constructor.
Defined.

(** ** The rolling regressor: what each row records *)

(** X4. For any solver, with a positive [window] and every pass yielding
    two coefficients, the call returns and row [i] is made of [y]'s
    timestamp at position [window + i] and of the two coefficients the
    solver returned, in the solver's order, for the observations
    [i .. i + window - 1] of [y] against those of [x] with its constant
    column; a later pass leaves the row as it is. *)
Theorem RollingOLS_records_each_pass
  (fit : Pandas.Series -> Pandas.DataFrame -> Result (list cell))
  (y x : Pandas.Series) (window : Z) :
  (0 < window)%Z ->
  fits_ok fit y x window ->
  exists df,
    RollingOLS fit y x window = Ok df /\
    forall i : nat, (Z.of_nat i < Py.len (Pandas.items y) - window)%Z ->
      exists (t : Timestamp) (c0 c1 : cell),
        nth_error (Pandas.s_index y) (Z.to_nat window + i) = Some t /\
        fit (Pandas.mkSeries (Pandas.name y)
               (firstn (Z.to_nat window) (skipn i (Pandas.items y))))
            (Statsmodels.add_constant
               (Pandas.mkSeries (Pandas.name x)
                  (firstn (Z.to_nat window) (skipn i (Pandas.items x)))))
          = Ok [c0; c1] /\
        Pandas.row df i = Some (t, [c0; c1]) /\
        Pandas.at_ df i "x" = Some c0 /\
        Pandas.at_ df i "intercept" = Some c1.
Proof.
  intros Hw Hfits.
  destruct (@RollingOLS_rows fit y x window) as (df & Hrun & Hshape & Hrows);
    [lia | assumption |].
  exists df. split; [exact Hrun |].
  intros i Hi.
  assert (Hin : Z.to_nat window + i < length (Pandas.s_index y)).
  { unfold Pandas.s_index, Py.len in *. rewrite length_map. lia. }
  destruct (nth_error (Pandas.s_index y) (Z.to_nat window + i)) as [t |] eqn:Ht;
    [| apply nth_error_None in Ht; lia].
  destruct (Hfits (Z.of_nat i)) as (c0 & c1 & Hfit); [lia |].
  exists t, c0, c1. split; [reflexivity |].
  pose proof (Hrows i t [c0; c1] Hi Ht Hfit) as Hrow.
  split; [| split; [exact Hrow |]].
  - unfold y_window, x_window, Pandas.series_slice in Hfit.
    rewrite !slice_window in Hfit by lia.
    now rewrite Nat2Z.id in Hfit.
  - apply (@two_columns_fields _ df i t c0 c1 Hshape); [| exact Hrow].
    rewrite length_skipn. lia.
Qed.

Lemma RollingOLS_records_each_pass_witness :
  exists df,
    RollingOLS Statsmodels.OLS_fit_params y_demo x_demo 2 = Ok df /\
    forall i : nat, (Z.of_nat i < Py.len (Pandas.items y_demo) - 2)%Z ->
      exists (t : Timestamp) (c0 c1 : cell),
        nth_error (Pandas.s_index y_demo) (Z.to_nat 2 + i) = Some t /\
        Statsmodels.OLS_fit_params
            (Pandas.mkSeries (Pandas.name y_demo)
               (firstn (Z.to_nat 2) (skipn i (Pandas.items y_demo))))
            (Statsmodels.add_constant
               (Pandas.mkSeries (Pandas.name x_demo)
                  (firstn (Z.to_nat 2) (skipn i (Pandas.items x_demo)))))
          = Ok [c0; c1] /\
        Pandas.row df i = Some (t, [c0; c1]) /\
        Pandas.at_ df i "x" = Some c0 /\
        Pandas.at_ df i "intercept" = Some c1.
Proof.
  apply (@RollingOLS_records_each_pass Statsmodels.OLS_fit_params y_demo x_demo 2).
  - reflexivity.
  - apply fits_okb_sound. vm_compute. reflexivity.
Defined.
